(** * init_agent.py: the agent-file generator

    A shallow embedding of
    [plugins/agent-creator/skills/agent-creator/scripts/init_agent.py]
    and the properties of its specification.

    The script validates an agent name with a regular expression, looks a
    pattern up in the module-level dictionary [TEMPLATES], creates the target
    directory, refuses to overwrite an existing file and writes a rendered
    template.  The embedding follows the script function by function:

    - [Re]: the fragment of Python's [re] engine the script's pattern uses;
    - [validate_name], [TEMPLATES], [create_agent], [main]: the script;
    - [Fs]: the part of the file system [pathlib] acts on;
    - a state-and-exception monad [M] over a [world] holding the module
      global, the file system and the two output streams.

    Modelling assumptions, stated once:
    - a Python [str] is a [string]; the character classes of the pattern only
      contain ASCII code points, so a non-ASCII code point is rejected by
      them exactly as each byte above 127 is;
    - a [Path] is absolute, free of [..] components and symbolic links, and
      is kept as the list of its components from the last one up to the root,
      so that [parent] is the tail of the list and [p / c] is [c :: p];
    - permissions, quotas and concurrent processes are outside the model. *)

From Stdlib Require Import Ascii String NArith ZArith List Bool Lia.
From stdpp Require Import base option list strings gmap fin_maps.

(* ===================================================================== *)
(** * Strings *)
(* ===================================================================== *)

(** The line feed, Python's ["\n"]. *)
Definition LF : ascii := "010"%char.
Definition nl : string := String LF "".

(** The double quote, as a one-character string. *)
Definition dquote : string := String "034"%char "".

(** [sep.join(parts)] *)
Definition join (sep : string) (parts : list string) : string :=
  String.concat sep parts.

(** [c in s] for a character [c]. *)
Fixpoint contains_char (c : ascii) (s : string) : bool :=
  match s with
  | EmptyString => false
  | String a s' => if Ascii.eqb a c then true else contains_char c s'
  end.

(* ===================================================================== *)
(** * The fragment of Python's [re] used by the script *)
(* ===================================================================== *)

Module Re.

(** A character set such as [[a-z0-9-]]: a list of inclusive ranges; a
    single character is the range from itself to itself. *)
Definition charset := list (ascii * ascii).

Definition in_range (c : ascii) (r : ascii * ascii) : bool :=
  (N.leb (N_of_ascii (fst r)) (N_of_ascii c)
   && N.leb (N_of_ascii c) (N_of_ascii (snd r)))%bool.

Definition in_charset (cs : charset) (c : ascii) : bool :=
  existsb (in_range c) cs.

(** The items the compiled pattern is made of, named as in [sre]:
    [^] is [AT_BEGINNING], [$] is [AT_END], a set is [IN], and a starred
    set is a greedy [MAX_REPEAT] over [IN]. *)
Inductive item :=
| AT_BEGINNING
| AT_END
| IN (cs : charset)
| MAX_REPEAT_IN (cs : charset).

Definition pattern := list item.

(** [$] without [re.MULTILINE]: at the end of the string, or just before a
    line feed that is the last character of the string. *)
Definition at_end (rest : string) : bool :=
  match rest with
  | EmptyString => true
  | String c EmptyString => Ascii.eqb c LF
  | _ => false
  end.

(** Backtracking match of [p] against [rest]; [start] tells whether [rest]
    is the whole subject.  A greedy repetition first takes one more
    character and, when the rest of the pattern then fails, gives it
    back. *)
Fixpoint match_here (p : pattern) (start : bool) (rest : string) : bool :=
  match p with
  | [] => true
  | AT_BEGINNING :: p' => start && match_here p' start rest
  | AT_END :: p' => at_end rest && match_here p' start rest
  | IN cs :: p' =>
      match rest with
      | EmptyString => false
      | String c rest' => in_charset cs c && match_here p' false rest'
      end
  | MAX_REPEAT_IN cs :: p' =>
      (fix repeat (start : bool) (rest : string) {struct rest} : bool :=
         match rest with
         | EmptyString => match_here p' start rest
         | String c rest' =>
             (in_charset cs c && repeat false rest')
             || match_here p' start rest
         end) start rest
  end.

(** [re.match(p, s)] anchors at the start of [s] and does not require the
    match to reach its end; [bool(...)] of the result tells whether there
    is a match. *)
Definition match_ (p : pattern) (s : string) : bool := match_here p true s.

End Re.

(* ===================================================================== *)
(** * validate_name *)
(* ===================================================================== *)

Definition lower : Re.charset := [("a"%char, "z"%char)].
Definition lower_digit_hyphen : Re.charset :=
  [("a"%char, "z"%char); ("0"%char, "9"%char); ("-"%char, "-"%char)].

(** [r'^[a-z][a-z0-9-]*$'] *)
Definition name_pattern : Re.pattern :=
  [Re.AT_BEGINNING; Re.IN lower; Re.MAX_REPEAT_IN lower_digit_hyphen; Re.AT_END].

(** [return bool(re.match(r'^[a-z][a-z0-9-]*$', name))] *)
Definition validate_name (name : string) : bool :=
  Re.match_ name_pattern name.

(** The specification's reading of the same pattern, in its own words:
    "starts with a lowercase letter, followed by zero or more lowercase
    letters, digits, or hyphens", over the whole string. *)
Definition is_lower (c : ascii) : bool :=
  (N.leb 97 (N_of_ascii c) && N.leb (N_of_ascii c) 122)%bool.
Definition is_digit (c : ascii) : bool :=
  (N.leb 48 (N_of_ascii c) && N.leb (N_of_ascii c) 57)%bool.
Definition is_hyphen (c : ascii) : bool := N.eqb (N_of_ascii c) 45.

Fixpoint all_chars (f : ascii -> bool) (s : string) : bool :=
  match s with
  | EmptyString => true
  | String c s' => f c && all_chars f s'
  end.

Definition spec_name_ok (s : string) : bool :=
  match s with
  | EmptyString => false
  | String c s' =>
      is_lower c && all_chars (fun a => is_lower a || is_digit a || is_hyphen a) s'
  end.

(* ===================================================================== *)
(** * The template registry *)
(* ===================================================================== *)

(** A Python [dict] with string keys keeps its insertion order, which
    [TEMPLATES.keys()] exposes: an association list in source order. *)
Definition dict (V : Type) := list (string * V).

(** [d.keys()] *)
Definition keys {V} (d : dict V) : list string := map fst d.

(** [d.get(k)]: the first entry whose key is exactly [k]. *)
Fixpoint dict_get {V} (d : dict V) (k : string) : option V :=
  match d with
  | [] => None
  | (k', v) :: d' => if String.eqb k' k then Some v else dict_get d' k
  end.

(** [k in d] *)
Definition dict_in {V} (k : string) (d : dict V) : bool :=
  match dict_get d k with Some _ => true | None => false end.

(** One entry of [TEMPLATES]: the inner dictionary with its three fixed
    keys ["tools"], ["model"] and ["prompt"]. *)
Record Template := {
  tools : list string;
  model : string;
  prompt : string
}.

(** A triple-quoted literal, written line by line. *)
Definition text (lines : list string) : string := join nl lines.

(** The prompt of the [researcher] pattern. *)
Definition researcher_prompt : string := text [
  "You are a research specialist focused on finding and analyzing information.";
  "";
  "## Capabilities";
  "";
  "- Search and retrieve information from files and web";
  "- Analyze documentation and code";
  "- Identify patterns and relationships";
  "- Synthesize findings into clear summaries";
  "";
  "## Guidelines";
  "";
  "- Explore thoroughly before drawing conclusions";
  "- Cite sources and file locations for findings";
  "- Acknowledge uncertainty when present";
  "- Present multiple perspectives when relevant";
  "";
  "## Output Format";
  "";
  "Provide findings with:";
  "1. Summary of key discoveries";
  "2. Supporting evidence with file paths or URLs";
  "3. Confidence level for conclusions";
  "4. Suggestions for further investigation if needed"
].

(** The prompt of the [reviewer] pattern. *)
Definition reviewer_prompt : string := text [
  "You are a senior software engineer specializing in code review.";
  "";
  "## Review Focus Areas";
  "";
  "1. **Security** - Vulnerabilities, injection risks, auth issues";
  "2. **Performance** - Inefficiencies, N+1 queries, memory leaks";
  "3. **Maintainability** - Complexity, duplication, unclear logic";
  "4. **Correctness** - Edge cases, error handling, type safety";
  "";
  "## Review Process";
  "";
  "1. Understand the code's purpose and context";
  "2. Read all relevant files before commenting";
  "3. Check for security vulnerabilities first";
  "4. Analyze performance implications";
  "5. Evaluate maintainability and readability";
  "";
  "## Output Format";
  "";
  "For each issue found:";
  "- **Severity**: Critical / Warning / Suggestion";
  "- **Location**: file:line";
  "- **Issue**: Clear description";
  "- **Recommendation**: Specific fix";
  "";
  "## Guidelines";
  "";
  "- Do not make changes, only analyze and report";
  "- Be specific with line numbers and code references";
  "- Explain *why* something is an issue, not just *what*";
  "- Prioritize security and correctness over style"
].

(** The prompt of the [specialist] pattern. *)
Definition specialist_prompt : string := text [
  "You are a specialist in [DOMAIN].";
  "";
  "## Expertise";
  "";
  "- [List your areas of expertise]";
  "- [Add specific technologies/frameworks]";
  "- [Include relevant patterns/practices]";
  "";
  "## Guidelines";
  "";
  "- Follow established patterns in the codebase";
  "- Write clean, maintainable code";
  "- Keep solutions simple and focused";
  "- Test changes appropriately";
  "";
  "Avoid over-engineering. Only make changes directly requested or clearly necessary."
].

(** The prompt of the [builder] pattern. *)
Definition builder_prompt : string := text [
  "You are an implementation specialist focused on writing quality code.";
  "";
  "## Approach";
  "";
  "1. Understand requirements completely before coding";
  "2. Read existing code to understand patterns";
  "3. Implement minimal, focused changes";
  "4. Test changes work correctly";
  "5. Clean up after yourself";
  "";
  "## Guidelines";
  "";
  "Avoid over-engineering. Only make changes directly requested or clearly necessary.";
  "Keep solutions simple and focused.";
  "";
  "Do not:";
  "- Add features beyond what was asked";
  "- Refactor surrounding code during bug fixes";
  "- Create abstractions for one-time operations";
  "- Add error handling for impossible scenarios";
  "";
  "## Code Standards";
  "";
  "- Follow existing patterns in the codebase";
  "- Write clear, self-documenting code";
  "- Handle errors at system boundaries";
  "- Use TypeScript types appropriately"
].

(** The prompt of the [quick] pattern. *)
Definition quick_prompt : string := text [
  "You are a fast, efficient assistant for quick tasks.";
  "";
  "## Focus";
  "";
  "- Concise answers";
  "- Direct solutions";
  "- Fast turnaround";
  "- No over-explanation";
  "";
  "Keep responses brief. Get to the point immediately."
].

(** The prompt of the [orchestrator] pattern. *)
Definition orchestrator_prompt : string := text [
  "You are a technical coordinator who accomplishes complex tasks by delegating to specialized sub-agents.";
  "";
  "## Coordination Strategy";
  "";
  "1. Break complex tasks into discrete sub-tasks";
  "2. Identify which sub-agent is best for each";
  "3. Spawn sub-agents in parallel when independent";
  "4. Synthesize results into cohesive outcome";
  "5. Track progress with TodoWrite";
  "";
  "## Guidelines";
  "";
  "- Plan before executing";
  "- Delegate rather than implement directly";
  "- Run independent sub-agents in parallel";
  "- Verify sub-agent results before proceeding";
  "- Maintain overall coherence across sub-tasks"
].

(** The prompt of the [planner] pattern. *)
Definition planner_prompt : string := text [
  "You are a software architect focused on design and planning.";
  "";
  "## Responsibilities";
  "";
  "- Analyze requirements and constraints";
  "- Design system architecture";
  "- Create implementation roadmaps";
  "- Identify risks and trade-offs";
  "- Document technical decisions";
  "";
  "## Process";
  "";
  "1. Understand current state and requirements";
  "2. Research relevant patterns and solutions";
  "3. Design architecture with clear boundaries";
  "4. Create step-by-step implementation plan";
  "5. Document decisions and trade-offs";
  "";
  "## Output Format";
  "";
  "Plans should include:";
  "1. **Overview** - What and why";
  "2. **Architecture** - Components and relationships";
  "3. **Implementation Steps** - Ordered, actionable tasks";
  "4. **Risks** - Potential issues and mitigations";
  "5. **Trade-offs** - Decisions made and alternatives considered";
  "";
  "## Guidelines";
  "";
  "- Do not implement, only plan";
  "- Consider maintainability and scalability";
  "- Identify dependencies between steps"
].

Definition TEMPLATES : dict Template := [
  ("researcher",
   {| tools := ["Read"; "Grep"; "Glob"; "WebSearch"; "WebFetch"];
      model := "sonnet";
      prompt := researcher_prompt |});
  ("reviewer",
   {| tools := ["Read"; "Grep"; "Glob"; "Bash"];
      model := "sonnet";
      prompt := reviewer_prompt |});
  ("specialist",
   {| tools := ["Read"; "Write"; "Edit"; "Grep"; "Glob"; "Bash"];
      model := "sonnet";
      prompt := specialist_prompt |});
  ("builder",
   {| tools := ["Read"; "Write"; "Edit"; "Grep"; "Glob"; "Bash"; "TodoWrite"];
      model := "sonnet";
      prompt := builder_prompt |});
  ("quick",
   {| tools := ["Read"; "Grep"; "Glob"];
      model := "haiku";
      prompt := quick_prompt |});
  ("orchestrator",
   {| tools := ["Read"; "Grep"; "Glob"; "Task"; "TodoWrite"];
      model := "opus";
      prompt := orchestrator_prompt |});
  ("planner",
   {| tools := ["Read"; "Grep"; "Glob"; "WebSearch"];
      model := "opus";
      prompt := planner_prompt |})
].

(* ===================================================================== *)
(** * Paths and the file system *)
(* ===================================================================== *)

(** A [pathlib.Path]: the components of an absolute path, the last one
    first. *)
Abbreviation Path := (list string).

(** [p / c], for a [c] that is a single component. *)
Definition truediv (p : Path) (c : string) : Path := c :: p.

(** [p.parent]; the root is its own parent. *)
Definition parent (p : Path) : Path := tail p.

(** [str(p)] *)
Definition path_str (p : Path) : string := "/" +:+ join "/" (rev p).

(** What a path can name: a regular file with its text, or a directory. *)
Inductive node :=
| File (content : string)
| Dir.

(** The file system maps the paths that exist to what they name; the root
    always exists, is a directory, and is not stored. *)
Abbreviation filesystem := (gmap Path node).

(** The exceptions the modelled calls can raise. *)
Inductive exn :=
| FileExistsError (p : Path)
| FileNotFoundError (p : Path)
| NotADirectoryError (p : Path)
| IsADirectoryError (p : Path)
| KeyError (k : string).

Module Fs.

Definition lookup_node (fs : filesystem) (p : Path) : option node :=
  match p with
  | [] => Some Dir
  | _ => fs !! p
  end.

(** [p.is_dir()] *)
Definition is_dir (fs : filesystem) (p : Path) : bool :=
  match lookup_node fs p with Some Dir => true | _ => false end.

(** [p.is_file()] *)
Definition is_file (fs : filesystem) (p : Path) : bool :=
  match lookup_node fs p with Some (File _) => true | _ => false end.

(** [p.exists()] *)
Definition exists_ (fs : filesystem) (p : Path) : bool :=
  match lookup_node fs p with Some _ => true | None => false end.

(** [os.mkdir(p)]: the parent is resolved first, then [p] must be new. *)
Definition os_mkdir (fs : filesystem) (p : Path) : exn + filesystem :=
  match p with
  | [] => inl (FileExistsError p)
  | _ :: up =>
      match lookup_node fs up with
      | None => inl (FileNotFoundError p)
      | Some (File _) => inl (NotADirectoryError p)
      | Some Dir =>
          match fs !! p with
          | Some _ => inl (FileExistsError p)
          | None => inr (<[p := Dir]> fs)
          end
      end
  end.

(** [Path.mkdir(parents=False, exist_ok=exist_ok)]:
    [FileNotFoundError] is re-raised; any other [OSError] is re-raised
    unless [exist_ok] holds and the path is a directory. *)
Definition mkdir_single (exist_ok : bool) (fs : filesystem) (p : Path)
  : exn + filesystem :=
  match os_mkdir fs p with
  | inr fs' => inr fs'
  | inl (FileNotFoundError q) => inl (FileNotFoundError q)
  | inl e => if exist_ok && is_dir fs p then inr fs else inl e
  end.

(** [Path.mkdir(parents=True, exist_ok=exist_ok)]: on [FileNotFoundError]
    the parent is made with [parents=True, exist_ok=True] and the path
    itself is then made without [parents]. *)
Fixpoint mkdir_parents (exist_ok : bool) (fs : filesystem) (p : Path)
  : exn + filesystem :=
  match os_mkdir fs p with
  | inr fs' => inr fs'
  | inl (FileNotFoundError q) =>
      match p with
      | [] => inl (FileNotFoundError q)
      | _ :: up =>
          match mkdir_parents true fs up with
          | inl e => inl e
          | inr fs1 => mkdir_single exist_ok fs1 p
          end
      end
  | inl e => if exist_ok && is_dir fs p then inr fs else inl e
  end.

(** [Path.mkdir(parents=..., exist_ok=...)] *)
Definition mkdir (parents exist_ok : bool) (fs : filesystem) (p : Path)
  : exn + filesystem :=
  if parents then mkdir_parents exist_ok fs p else mkdir_single exist_ok fs p.

(** [p.write_text(data)]: opens [p] for writing, creating or truncating
    it, and stores [data]. *)
Definition write_text (fs : filesystem) (p : Path) (data : string)
  : exn + filesystem :=
  match p with
  | [] => inl (IsADirectoryError p)
  | _ :: up =>
      match lookup_node fs up with
      | None => inl (FileNotFoundError p)
      | Some (File _) => inl (NotADirectoryError p)
      | Some Dir =>
          match fs !! p with
          | Some Dir => inl (IsADirectoryError p)
          | _ => inr (<[p := File data]> fs)
          end
      end
  end.

(** [p] and the directories above it, up to the root. *)
Fixpoint chain (p : Path) : list Path :=
  p :: match p with
       | [] => []
       | _ :: up => chain up
       end.

(** A consistent file system: whatever exists lies in a directory. *)
Definition consistent (fs : filesystem) : Prop :=
  map_Forall (fun p (_ : node) => p <> [] /\ is_dir fs (parent p) = true) fs.

#[export] Instance consistent_dec (fs : filesystem) : Decision (consistent fs).
Proof. unfold consistent. apply _. Defined.

(** No regular file stands at [p] or above it, so that [p] can be made a
    directory. *)
Definition clear_of_files (fs : filesystem) (p : Path) : bool :=
  forallb (fun q => negb (is_file fs q)) (chain p).

End Fs.

(* ===================================================================== *)
(** * The process: module global, file system, output streams *)
(* ===================================================================== *)

(** What the interpreter writes to the error stream when an exception
    reaches the top level. *)
Inductive report :=
| Traceback (e : exn).

(** [stdout] holds the texts of the [print] calls, oldest first. *)
Record world := {
  module_TEMPLATES : dict Template;
  fs : filesystem;
  stdout : list string;
  stderr : list report
}.

Definition with_fs (w : world) (fs' : filesystem) : world :=
  {| module_TEMPLATES := module_TEMPLATES w; fs := fs';
     stdout := stdout w; stderr := stderr w |}.

Definition with_stdout (w : world) (out : list string) : world :=
  {| module_TEMPLATES := module_TEMPLATES w; fs := fs w;
     stdout := out; stderr := stderr w |}.

Definition with_stderr (w : world) (err : list report) : world :=
  {| module_TEMPLATES := module_TEMPLATES w; fs := fs w;
     stdout := stdout w; stderr := err |}.

(** How a call ends: it returns, [sys.exit] unwinds it, or an exception
    does. *)
Inductive result (A : Type) :=
| Return (a : A)
| SystemExit (code : Z)
| Raise (e : exn).
Arguments Return {A} a.
Arguments SystemExit {A} code.
Arguments Raise {A} e.

Definition M (A : Type) : Type := world -> result A * world.

#[export] Instance M_ret : MRet M := fun A a w => (Return a, w).

#[export] Instance M_bind : MBind M := fun A B f m w =>
  match m w with
  | (Return a, w') => f a w'
  | (SystemExit c, w') => (SystemExit c, w')
  | (Raise e, w') => (Raise e, w')
  end.

(** [print(s)] writes to standard output. *)
Definition print (s : string) : M unit :=
  fun w => (Return tt, with_stdout w (stdout w ++ [s])).

(** The effect of a run of [print] calls on the world. *)
Definition prints (lines : list string) (w : world) : world :=
  fold_left (fun w s => with_stdout w (stdout w ++ [s])) lines w.

(** [sys.exit(code)] *)
Definition sys_exit {A} (code : Z) : M A := fun w => (SystemExit code, w).

(** Reading the module global [TEMPLATES]. *)
Definition get_TEMPLATES : M (dict Template) :=
  fun w => (Return (module_TEMPLATES w), w).

(** [d[k]] *)
Definition getitem {V} (d : dict V) (k : string) : M V :=
  fun w => match dict_get d k with
           | Some v => (Return v, w)
           | None => (Raise (KeyError k), w)
           end.

Definition lift_fs (op : filesystem -> exn + filesystem) : M unit :=
  fun w => match op (fs w) with
           | inr fs' => (Return tt, with_fs w fs')
           | inl e => (Raise e, w)
           end.

Definition Path_mkdir (p : Path) (parents exist_ok : bool) : M unit :=
  lift_fs (fun fs => Fs.mkdir parents exist_ok fs p).

Definition Path_exists (p : Path) : M bool :=
  fun w => (Return (Fs.exists_ (fs w) p), w).

Definition Path_write_text (p : Path) (data : string) : M unit :=
  lift_fs (fun fs => Fs.write_text fs p data).

(* ===================================================================== *)
(** * create_agent and main *)
(* ===================================================================== *)

(** The [description:] line of the frontmatter. *)
Definition description_line : string :=
  "description: " +:+ dquote +:+ "TODO: Describe when to use this agent" +:+ dquote.

(** ["\n".join(f"  - {tool}" for tool in template["tools"])] *)
Definition tools_yaml (template : Template) : string :=
  join nl (map (fun tool => "  - " +:+ tool) (tools template)).

(** The f-string bound to [content]. *)
Definition content (name : string) (template : Template) : string :=
  "---" +:+ nl +:+
  "name: " +:+ name +:+ nl +:+
  description_line +:+ nl +:+
  "tools:" +:+ nl +:+
  tools_yaml template +:+ nl +:+
  "model: " +:+ model template +:+ nl +:+
  "---" +:+ nl +:+
  nl +:+
  prompt template +:+ nl.

Definition invalid_name_message (name : string) : string :=
  "Error: Agent name must be lowercase with hyphens only (got: " +:+ name +:+ ")".

Definition unknown_pattern_message (pattern : string) : string :=
  "Error: Unknown pattern '" +:+ pattern +:+ "'".

Definition available_patterns_message (TEMPLATES : dict Template) : string :=
  "Available patterns: " +:+ join ", " (keys TEMPLATES).

Definition already_exists_message (agent_file : Path) : string :=
  "Error: Agent file already exists: " +:+ path_str agent_file.

Definition create_agent (name : string) (path : Path) (pattern : string)
  : M Path :=
  _ ← (if negb (validate_name name) then
         _ ← print (invalid_name_message name);
         sys_exit 1
       else mret tt : M unit);
  TEMPLATES ← get_TEMPLATES;
  _ ← (if negb (dict_in pattern TEMPLATES) then
         _ ← print (unknown_pattern_message pattern);
         _ ← print (available_patterns_message TEMPLATES);
         sys_exit 1
       else mret tt : M unit);
  template ← getitem TEMPLATES pattern;
  _ ← Path_mkdir path true true;
  let agent_file := truediv path (name +:+ ".md") in
  agent_file_exists ← Path_exists agent_file;
  _ ← (if (agent_file_exists : bool) then
         _ ← print (already_exists_message agent_file);
         sys_exit 1
       else mret tt : M unit);
  _ ← Path_write_text agent_file (content name template);
  (mret agent_file : M Path).

(** The [argparse.Namespace] returned by [parser.parse_args()]. *)
Record Namespace := {
  args_name : string;
  args_path : Path;
  args_pattern : string
}.

(** The body of [main] from the call of [create_agent] on, that is, once
    [parser.parse_args()] has returned [args].  The parsing of the command
    line by [argparse] is not modelled: before that point [argparse] may end
    the process by itself (status 2 and a usage message on the error stream
    for a command line it rejects, such as a [--pattern] outside its
    choices; status 0 after [--help]), and such runs never reach this
    code. *)
Definition main (args : Namespace) : M unit :=
  agent_file ← create_agent (args_name args) (args_path args) (args_pattern args);
  _ ← print ("Created agent: " +:+ path_str agent_file);
  _ ← print ("Pattern: " +:+ args_pattern args);
  _ ← print "";
  _ ← print "Next steps:";
  _ ← print ("  1. Edit " +:+ path_str agent_file);
  _ ← print "  2. Update the description to specify when to use this agent";
  _ ← print "  3. Customize the system prompt for your use case";
  _ ← print "  4. Adjust tools and model as needed";
  _ ← print "";
  _ ← print "Test your agent:";
  print ("  claude --agent " +:+ args_name args).

(** The interpreter running [main()] as the script, from the return of
    [parser.parse_args()] on: the exit status is 0 when [main] returns, the
    argument of [sys.exit] when it was called, and 1 after reporting an
    exception nobody caught. *)
Definition script (args : Namespace) (w : world) : Z * world :=
  match main args w with
  | (Return _, w') => (0%Z, w')
  | (SystemExit code, w') => (code, w')
  | (Raise e, w') => (1%Z, with_stderr w' (stderr w' ++ [Traceback e]))
  end.

(** The world the script starts in: the module global holds the literal,
    nothing has been printed. *)
Definition initial_world (fs0 : filesystem) : world :=
  {| module_TEMPLATES := TEMPLATES; fs := fs0; stdout := []; stderr := [] |}.

(** The specification's file layout, line by line: every line of the
    frontmatter ends with a line feed, a blank line follows, then the
    prompt body and a final line feed. *)
Definition unlines (lines : list string) : string :=
  fold_right (fun l acc => l +:+ nl +:+ acc) "" lines.

Definition layout (name : string) (capabilities : list string)
    (modelIdentifier promptBody : string) : string :=
  unlines (["---"; "name: " +:+ name; description_line; "tools:"]
           ++ map (fun c => "  - " +:+ c) capabilities
           ++ ["model: " +:+ modelIdentifier; "---"; ""])
  +:+ promptBody +:+ nl.

(* ===================================================================== *)
(** * Properties of the name validator *)
(* ===================================================================== *)

Section NameValidator.

Lemma in_lower c : Re.in_charset lower c = is_lower c.
Proof.
  unfold Re.in_charset, lower, Re.in_range, is_lower.
  cbv [existsb fst snd]. now rewrite orb_false_r.
Qed.

Lemma in_lower_digit_hyphen c :
  Re.in_charset lower_digit_hyphen c = is_lower c || is_digit c || is_hyphen c.
Proof.
  unfold Re.in_charset, lower_digit_hyphen, Re.in_range, is_lower, is_digit,
    is_hyphen.
  cbv [existsb fst snd]. rewrite orb_false_r, orb_assoc.
  change (N_of_ascii "a") with 97%N. change (N_of_ascii "z") with 122%N.
  change (N_of_ascii "0") with 48%N. change (N_of_ascii "9") with 57%N.
  change (N_of_ascii "-") with 45%N. f_equal.
  destruct (N.leb_spec 45 (N_of_ascii c)), (N.leb_spec (N_of_ascii c) 45),
    (N.eqb_spec (N_of_ascii c) 45); simpl; try reflexivity; lia.
Qed.

Lemma all_chars_ext f g s :
  (forall c, f c = g c) -> all_chars f s = all_chars g s.
Proof. intros E. induction s as [|c s IH]; simpl; [reflexivity|]. now rewrite E, IH. Qed.

Lemma all_chars_app f s t :
  all_chars f (s +:+ t) = all_chars f s && all_chars f t.
Proof.
  induction s as [|c s IH]; simpl; [reflexivity|].
  now rewrite IH, andb_assoc.
Qed.

(** What the greedy repetition followed by [$] accepts: a run of characters
    of the set, possibly followed by one final line feed. *)
Lemma repeat_then_end cs start s :
  Re.match_here [Re.MAX_REPEAT_IN cs; Re.AT_END] start s = true <->
  all_chars (Re.in_charset cs) s = true \/
  exists body, s = body +:+ nl /\ all_chars (Re.in_charset cs) body = true.
Proof.
  revert start. induction s as [|c s IH]; intros start.
  - simpl. tauto.
  - specialize (IH false). cbn in IH |- *. split.
    + intros H. apply orb_true_iff in H as [H|H].
      * apply andb_true_iff in H as [Hc H]. apply IH in H as [H|(body & -> & H)].
        -- left. now rewrite Hc, H.
        -- right. exists (String c body). simpl. now rewrite Hc, H.
      * destruct s; [|now rewrite andb_false_l in H || discriminate].
        rewrite andb_true_r in H. apply Ascii.eqb_eq in H as ->.
        right. now exists EmptyString.
    + intros [H|(body & E & H)].
      * apply andb_true_iff in H as [Hc H]. rewrite Hc. simpl.
        apply orb_true_iff. left. apply IH. now left.
      * destruct body as [|b body]; simpl in E; injection E as -> ->.
        -- simpl. now rewrite orb_true_r.
        -- simpl in H. apply andb_true_iff in H as [Hc H]. rewrite Hc. simpl.
           apply orb_true_iff. left. apply IH. right. now exists body.
Qed.

(** The validator accepts exactly the names of the specification, and
    those names followed by one line feed. *)
Lemma validate_name_iff s :
  validate_name s = true <->
  spec_name_ok s = true \/
  exists body, s = body +:+ nl /\ spec_name_ok body = true.
Proof.
  unfold validate_name, Re.match_, name_pattern.
  destruct s as [|c s].
  - simpl. split; [discriminate|].
    intros [H|(body & E & H)]; [discriminate|].
    destruct body; [discriminate|]. discriminate.
  - change (Re.match_here _ true (String c s))
      with (true && (Re.in_charset lower c
            && Re.match_here [Re.MAX_REPEAT_IN lower_digit_hyphen; Re.AT_END] false s)).
    rewrite andb_true_l, andb_true_iff, repeat_then_end, in_lower.
    unfold spec_name_ok.
    rewrite (all_chars_ext _ _ s in_lower_digit_hyphen).
    split.
    + intros [Hc [H|(body & -> & H)]].
      * left. now rewrite Hc, H.
      * right. exists (String c body). split; [reflexivity|].
        rewrite Hc. simpl.
        now rewrite <- (all_chars_ext _ _ body in_lower_digit_hyphen).
    + intros [H|(body & E & H)].
      * apply andb_true_iff in H as [Hc H]. split; [assumption|]. now left.
      * destruct body as [|b body]; [discriminate|].
        simpl in E. injection E as -> ->.
        apply andb_true_iff in H as [Hc H]. split; [assumption|].
        right. exists body. split; [reflexivity|].
        now rewrite (all_chars_ext _ _ body in_lower_digit_hyphen).
Qed.

(** Every name of the specification is accepted. *)
Lemma spec_name_ok_accepted s : spec_name_ok s = true -> validate_name s = true.
Proof. intros H. apply validate_name_iff. now left. Qed.

(** A line feed is not a character of the specification's names. *)
Lemma spec_name_ok_no_LF s :
  spec_name_ok s = true -> contains_char LF s = false.
Proof.
  assert (T : forall t, all_chars (fun a => is_lower a || is_digit a || is_hyphen a) t = true ->
                        contains_char LF t = false).
  { induction t as [|c t IH]; simpl; [reflexivity|].
    intros H. apply andb_true_iff in H as [Hc H].
    destruct (Ascii.eqb_spec c LF) as [->|_]; [discriminate Hc|]. auto. }
  destruct s as [|c s]; simpl; [discriminate|].
  intros H. apply andb_true_iff in H as [Hc H].
  destruct (Ascii.eqb_spec c LF) as [->|_]; [discriminate Hc|]. auto.
Qed.

(** On names that do not end with a line feed the validator and the
    specification agree. *)
Lemma validate_name_without_LF s :
  contains_char LF s = false -> validate_name s = spec_name_ok s.
Proof.
  intros HLF. destruct (spec_name_ok s) eqn:E.
  - now apply spec_name_ok_accepted.
  - destruct (validate_name s) eqn:V; [|reflexivity].
    apply validate_name_iff in V as [V|(body & -> & _)]; [congruence|].
    exfalso. clear E. induction body as [|c body IH]; simpl in HLF.
    + discriminate.
    + destruct (Ascii.eqb c LF); [discriminate|]. auto.
Qed.

(** An accepted name has no slash: [name + ".md"] is one path component. *)
Lemma validate_name_no_slash s :
  validate_name s = true -> contains_char "/" s = false.
Proof.
  assert (T : forall t, all_chars (fun a => is_lower a || is_digit a || is_hyphen a) t = true ->
                        contains_char "/" t = false).
  { induction t as [|c t IH]; simpl; [reflexivity|].
    intros H. apply andb_true_iff in H as [Hc H].
    destruct (Ascii.eqb_spec c "/") as [->|_]; [discriminate Hc|]. auto. }
  assert (S : forall t, spec_name_ok t = true -> contains_char "/" t = false).
  { intros [|c t]; simpl; [discriminate|].
    intros H. apply andb_true_iff in H as [Hc H].
    destruct (Ascii.eqb_spec c "/") as [->|_]; [discriminate Hc|]. auto. }
  intros H. apply validate_name_iff in H as [H|(body & -> & H)]; [auto|].
  apply S in H. clear S T. induction body as [|c body IH]; simpl in *.
  - reflexivity.
  - destruct (Ascii.eqb c "/"); [discriminate|]. auto.
Qed.

(** C1 (defect in the code).  The validator accepts a name followed by a
    line feed, for instance the two-character string made of [a] and a line
    feed, which the pattern of the specification, read over the whole
    string, rejects: [$] in [re.match] also matches just before a final
    line feed. *)
Theorem validate_name_accepts_trailing_newline :
  validate_name ("a" +:+ nl) = true /\ spec_name_ok ("a" +:+ nl) = false.
Proof. split; reflexivity. Qed.

End NameValidator.

(* ===================================================================== *)
(** * Properties of the file-system operations *)
(* ===================================================================== *)

Section FileSystem.

Implicit Types (fs : filesystem) (p q up : Path) (c : string) (n : node).

Lemma not_in_chain_longer c up q : q ∈ Fs.chain up -> q <> c :: up.
Proof.
  intros Hq E. subst q.
  assert (L : forall p r, r ∈ Fs.chain p -> length r <= length p).
  { clear. induction p as [|a p IH]; intros r Hr; simpl in Hr.
    - apply list_elem_of_singleton in Hr as ->. reflexivity.
    - apply elem_of_cons in Hr as [->|Hr]; [reflexivity|].
      apply IH in Hr. simpl. lia. }
  apply L in Hq. simpl in Hq. lia.
Qed.

Lemma chain_self p : p ∈ Fs.chain p.
Proof. destruct p; simpl; apply elem_of_cons; now left. Qed.

Lemma lookup_node_cons fs c up : Fs.lookup_node fs (c :: up) = fs !! (c :: up).
Proof. reflexivity. Qed.

Lemma is_dir_lookup fs p :
  Fs.is_dir fs p = true <-> Fs.lookup_node fs p = Some Dir.
Proof.
  unfold Fs.is_dir. destruct (Fs.lookup_node fs p) as [[]|]; split; congruence.
Qed.

Lemma is_dir_root fs : Fs.is_dir fs [] = true.
Proof. reflexivity. Qed.

Lemma is_dir_insert_ne fs p q n :
  p <> q -> q <> [] -> Fs.is_dir (<[p := n]> fs) q = Fs.is_dir fs q.
Proof.
  intros Hne Hq. unfold Fs.is_dir. destruct q; [congruence|].
  rewrite !lookup_node_cons. now rewrite lookup_insert_ne.
Qed.

(** [os.mkdir] succeeds exactly on a new name in an existing directory. *)
Lemma os_mkdir_inr fs p fs' :
  Fs.os_mkdir fs p = inr fs' <->
  exists c up, p = c :: up /\ Fs.is_dir fs up = true /\ fs !! p = None
               /\ fs' = <[p := Dir]> fs.
Proof.
  unfold Fs.os_mkdir. destruct p as [|c up].
  - split; [discriminate|]. now intros (? & ? & ? & _).
  - unfold Fs.is_dir.
    destruct (Fs.lookup_node fs up) as [[]|] eqn:Hup;
      try (split; [discriminate|]; intros (? & ? & E & ? & _); now inversion E; subst).
    + split; [discriminate|]. intros (? & ? & E & D & _). inversion E; subst.
      rewrite Hup in D. discriminate.
    + destruct (fs !! (c :: up)) eqn:Hp.
      * split; [discriminate|]. intros (? & ? & _ & _ & ? & _). discriminate.
      * split.
        -- intros [= <-]. exists c, up. now rewrite Hup.
        -- intros (? & ? & _ & _ & _ & ->). reflexivity.
    + split; [discriminate|]. intros (? & ? & E & D & _). inversion E; subst.
      rewrite Hup in D. discriminate.
Qed.

(** Once [os.mkdir] has made [p], [Path.mkdir] finds it in place. *)
Lemma mkdir_parents_after_os_mkdir fs p fs' :
  Fs.os_mkdir fs p = inr fs' -> Fs.mkdir_parents true fs' p = inr fs'.
Proof.
  intros H. apply os_mkdir_inr in H as (c & up & -> & Hup & _ & ->).
  assert (D : Fs.lookup_node (<[c :: up := Dir]> fs) up = Some Dir).
  { apply is_dir_lookup. destruct up as [|a up]; [reflexivity|].
    rewrite is_dir_insert_ne; [assumption| |discriminate].
    intros E. apply (f_equal length) in E. simpl in E. lia. }
  simpl. rewrite D, lookup_insert_eq. simpl.
  unfold Fs.is_dir. now rewrite lookup_node_cons, lookup_insert_eq.
Qed.

(** [Path.mkdir] without [parents] succeeds by making the directory, or by
    finding it there. *)
Lemma mkdir_single_inr fs p fs' :
  Fs.mkdir_single true fs p = inr fs' ->
  Fs.os_mkdir fs p = inr fs'
  \/ (fs' = fs /\ Fs.is_dir fs p = true /\ Fs.mkdir_parents true fs p = inr fs).
Proof.
  destruct p as [|c up].
  - simpl. intros [= <-]. right. now repeat split.
  - unfold Fs.mkdir_single. cbn [Fs.mkdir_parents].
    destruct (Fs.os_mkdir fs (c :: up)) as [e|fs1] eqn:E.
    + destruct e; try discriminate;
        (destruct (Fs.is_dir fs (c :: up)) eqn:D; simpl; [|discriminate]);
        intros [= <-]; right; now repeat split.
    + intros [= <-]. now left.
Qed.

(** The three ways [Path.mkdir(parents=True, exist_ok=True)] succeeds. *)
Lemma mkdir_parents_inr fs p fs' :
  Fs.mkdir_parents true fs p = inr fs' ->
  Fs.os_mkdir fs p = inr fs'
  \/ (fs' = fs /\ Fs.is_dir fs p = true)
  \/ exists c up fs1, p = c :: up /\ Fs.mkdir_parents true fs up = inr fs1
                      /\ Fs.mkdir_single true fs1 p = inr fs'.
Proof.
  destruct p as [|c up].
  - simpl. intros [= <-]. right. left. now split.
  - cbn [Fs.mkdir_parents].
    destruct (Fs.os_mkdir fs (c :: up)) as [e|fs1] eqn:E.
    + destruct e;
        try (destruct (Fs.is_dir fs (c :: up)) eqn:D; simpl; [|discriminate];
             intros [= <-]; right; left; now split).
      destruct (Fs.mkdir_parents true fs up) as [e|fs1] eqn:R; [discriminate|].
      intros H. right. right. now exists c, up, fs1.
    + intros [= <-]. now left.
Qed.

(** Idempotence: making the directory a second time changes nothing and
    raises nothing. *)
Lemma mkdir_parents_again fs p fs' :
  Fs.mkdir_parents true fs p = inr fs' -> Fs.mkdir_parents true fs' p = inr fs'.
Proof.
  intros H.
  destruct (mkdir_parents_inr _ _ _ H) as [O|[[-> _]|(c & up & fs1 & -> & _ & S)]].
  - now apply mkdir_parents_after_os_mkdir in O.
  - assumption.
  - apply mkdir_single_inr in S as [O|(-> & _ & S)]; [|assumption].
    now apply mkdir_parents_after_os_mkdir in O.
Qed.

(** After a successful [mkdir] the path is a directory. *)
Lemma mkdir_parents_is_dir fs p fs' :
  Fs.mkdir_parents true fs p = inr fs' -> Fs.is_dir fs' p = true.
Proof.
  intros H. apply mkdir_parents_inr in H as [H|[[-> H]|(c & up & fs1 & -> & _ & H)]].
  - apply os_mkdir_inr in H as (c & up & -> & _ & _ & ->).
    unfold Fs.is_dir. rewrite lookup_node_cons, lookup_insert_eq. reflexivity.
  - assumption.
  - apply mkdir_single_inr in H as [H|(-> & H & _)]; [|assumption].
    apply os_mkdir_inr in H as (c' & up' & _ & _ & _ & ->).
    unfold Fs.is_dir. rewrite lookup_node_cons, lookup_insert_eq. reflexivity.
Qed.

(** [mkdir] never touches what exists. *)
Lemma mkdir_parents_preserves fs p fs' :
  Fs.mkdir_parents true fs p = inr fs' ->
  forall q n, fs !! q = Some n -> fs' !! q = Some n.
Proof.
  revert fs fs'. induction p as [|c up IH]; intros fs fs' H q n Hq.
  - simpl in H. now injection H as <-.
  - apply mkdir_parents_inr in H as [H|[[-> _]|(c' & up' & fs1 & [= <- <-] & R & S)]].
    + apply os_mkdir_inr in H as (_ & _ & _ & _ & Hp & ->).
      rewrite lookup_insert_ne; [assumption|]. intros <-. congruence.
    + assumption.
    + specialize (IH _ _ R _ _ Hq).
      apply mkdir_single_inr in S as [O|(-> & _)]; [|assumption].
      apply os_mkdir_inr in O as (_ & _ & _ & _ & Hp & ->).
      rewrite lookup_insert_ne; [assumption|]. intros <-. congruence.
Qed.

(** [mkdir] only adds [p] and directories above it. *)
Lemma mkdir_parents_frame fs p fs' :
  Fs.mkdir_parents true fs p = inr fs' ->
  forall q, q ∉ Fs.chain p -> fs' !! q = fs !! q.
Proof.
  revert fs fs'. induction p as [|c up IH]; intros fs fs' H q Hq.
  - simpl in H. now injection H as <-.
  - assert (Hne : c :: up <> q) by (intros <-; apply Hq, chain_self).
    assert (Hup : q ∉ Fs.chain up).
    { intros Hin. apply Hq. simpl. apply elem_of_cons. now right. }
    apply mkdir_parents_inr in H as [H|[[-> _]|(c' & up' & fs1 & [= <- <-] & R & S)]].
    + apply os_mkdir_inr in H as (_ & _ & _ & _ & _ & ->).
      now rewrite lookup_insert_ne.
    + reflexivity.
    + rewrite <- (IH _ _ R _ Hup).
      apply mkdir_single_inr in S as [O|(-> & _)]; [|reflexivity].
      apply os_mkdir_inr in O as (_ & _ & _ & _ & _ & ->).
      now rewrite lookup_insert_ne.
Qed.

(** In a consistent file system a directory lies in directories, up to
    the root. *)
Lemma consistent_parent fs c up n :
  Fs.consistent fs -> fs !! (c :: up) = Some n -> Fs.is_dir fs up = true.
Proof. intros C H. now destruct (C _ _ H) as [_ D]. Qed.

Lemma consistent_chain fs p :
  Fs.consistent fs -> Fs.is_dir fs p = true ->
  forall q, q ∈ Fs.chain p -> Fs.is_dir fs q = true.
Proof.
  intros C. induction p as [|c up IH]; intros D q Hq; simpl in Hq.
  - apply list_elem_of_singleton in Hq as ->. reflexivity.
  - apply elem_of_cons in Hq as [->|Hq]; [assumption|].
    apply IH; [|assumption].
    apply is_dir_lookup in D. rewrite lookup_node_cons in D.
    eapply consistent_parent; eassumption.
Qed.

(** An existing directory of a consistent file system is left as it is. *)
Lemma mkdir_parents_existing fs p :
  Fs.consistent fs -> Fs.is_dir fs p = true -> Fs.mkdir_parents true fs p = inr fs.
Proof.
  intros C D. destruct p as [|c up]; [reflexivity|].
  pose proof D as D'. apply is_dir_lookup in D'. rewrite lookup_node_cons in D'.
  pose proof (consistent_parent _ _ _ _ C D') as Hup. apply is_dir_lookup in Hup.
  simpl. rewrite Hup, D'. simpl. now rewrite D.
Qed.

Lemma clear_of_files_cons fs c up :
  Fs.clear_of_files fs (c :: up) = negb (Fs.is_file fs (c :: up)) && Fs.clear_of_files fs up.
Proof. reflexivity. Qed.

Lemma clear_of_files_self fs p :
  Fs.clear_of_files fs p = true -> Fs.is_file fs p = false.
Proof.
  destruct p as [|c up]; [reflexivity|]. rewrite clear_of_files_cons.
  intros H. apply andb_true_iff in H as [H _]. now apply negb_true_iff in H.
Qed.

(** With no file in the way, [mkdir] succeeds and the whole chain of
    directories is there afterwards. *)
Lemma mkdir_parents_clear fs p :
  Fs.consistent fs -> Fs.clear_of_files fs p = true ->
  exists fs', Fs.mkdir_parents true fs p = inr fs'
              /\ forall q, q ∈ Fs.chain p -> Fs.is_dir fs' q = true.
Proof.
  intros C. induction p as [|c up IH]; intros Hclear.
  - exists fs. split; [reflexivity|]. intros q Hq. simpl in Hq.
    apply list_elem_of_singleton in Hq as ->. reflexivity.
  - pose proof (clear_of_files_self _ _ Hclear) as Hp.
    rewrite clear_of_files_cons in Hclear. apply andb_true_iff in Hclear as [_ Hup].
    destruct (IH Hup) as (fs1 & R & Hdirs).
    pose proof (clear_of_files_self _ _ Hup) as Hupf.
    assert (step : forall fs0, Fs.is_dir fs0 up = true ->
              (forall q, q ∈ Fs.chain up -> Fs.is_dir fs0 q = true) ->
              Fs.is_file fs0 (c :: up) = false ->
              exists fs', Fs.mkdir_single true fs0 (c :: up) = inr fs'
                /\ Fs.mkdir_parents true fs0 (c :: up) = inr fs'
                /\ forall q, q ∈ Fs.chain (c :: up) -> Fs.is_dir fs' q = true).
    { intros fs0 D0 Hall F0. apply is_dir_lookup in D0.
      unfold Fs.mkdir_single. simpl Fs.mkdir_parents. unfold Fs.os_mkdir. rewrite D0.
      unfold Fs.is_file in F0. rewrite lookup_node_cons in F0.
      destruct (fs0 !! (c :: up)) as [[]|] eqn:E; [discriminate| |].
      - assert (D : Fs.is_dir fs0 (c :: up) = true)
          by (unfold Fs.is_dir; now rewrite lookup_node_cons, E).
        exists fs0. rewrite D. simpl. repeat split.
        intros q Hq. simpl in Hq. apply elem_of_cons in Hq as [->|Hq]; auto.
      - eexists. repeat split. intros q Hq. simpl in Hq.
        apply elem_of_cons in Hq as [->|Hq].
        + unfold Fs.is_dir. now rewrite lookup_node_cons, lookup_insert_eq.
        + destruct q as [|a q]; [reflexivity|].
          rewrite is_dir_insert_ne; [auto| |discriminate].
          intros E'. symmetry in E'. revert E'. now apply not_in_chain_longer. }
    destruct (Fs.is_dir fs up) eqn:D.
    + destruct (step fs D (consistent_chain _ _ C D) Hp) as (fs' & _ & M & H).
      now exists fs'.
    + (* the parent is missing: [os.mkdir] raises [FileNotFoundError] *)
      assert (N : Fs.lookup_node fs up = None).
      { unfold Fs.is_dir in D. unfold Fs.is_file in Hupf.
        destruct (Fs.lookup_node fs up) as [[]|]; congruence. }
      assert (F1 : Fs.is_file fs1 (c :: up) = false).
      { unfold Fs.is_file. rewrite lookup_node_cons.
        rewrite (mkdir_parents_frame _ _ _ R).
        - exact Hp.
        - intros Hin. now apply (not_in_chain_longer c up) in Hin. }
      destruct (step fs1 (Hdirs _ (chain_self up)) Hdirs F1) as (fs' & S & _ & H).
      exists fs'. split; [|assumption].
      simpl. rewrite N. now rewrite R.
Qed.

End FileSystem.

(* ===================================================================== *)
(** * Properties of the registry *)
(* ===================================================================== *)

Section Registry.

Lemma dict_get_Some_In {V} (d : dict V) k v :
  dict_get d k = Some v -> In (k, v) d.
Proof.
  induction d as [|[k' v'] d IH]; simpl; [discriminate|].
  destruct (String.eqb_spec k' k) as [->|_].
  - intros [= ->]. now left.
  - intros H. right. auto.
Qed.

Lemma dict_in_keys {V} (d : dict V) k : dict_in k d = true <-> In k (keys d).
Proof.
  unfold dict_in. induction d as [|[k' v'] d IH]; simpl.
  - split; [discriminate|tauto].
  - destruct (String.eqb_spec k' k) as [->|Hne].
    + split; [now left|reflexivity].
    + rewrite IH. split; [now right|]. now intros [?|?].
Qed.

Lemma dict_in_get {V} (d : dict V) k :
  dict_in k d = true -> exists v, dict_get d k = Some v.
Proof. unfold dict_in. destruct (dict_get d k) as [v|]; [now exists v|discriminate]. Qed.

Lemma keys_TEMPLATES :
  keys TEMPLATES =
  ["researcher"; "reviewer"; "specialist"; "builder"; "quick"; "orchestrator";
   "planner"].
Proof. reflexivity. Qed.

End Registry.

(* ===================================================================== *)
(** * Properties of create_agent *)
(* ===================================================================== *)

Section CreateAgent.

Implicit Types (name pattern : string) (path : Path) (w : world)
  (template : Template).

(** Reduce the monadic plumbing and leave the calls of the script alone. *)
Ltac keep_calls :=
  cbn -[Fs.mkdir_parents Fs.exists_ Fs.write_text content truediv
        invalid_name_message unknown_pattern_message
        available_patterns_message already_exists_message path_str
        validate_name dict_get String.append].

(** The runs of [create_agent], one branch per way it can end. *)
Lemma create_agent_unfold name path pattern w :
  create_agent name path pattern w =
  if negb (validate_name name) then
    (SystemExit 1, with_stdout w (stdout w ++ [invalid_name_message name]))
  else
    match dict_get (module_TEMPLATES w) pattern with
    | None =>
        (SystemExit 1,
         with_stdout w (stdout w ++ [unknown_pattern_message pattern;
                                     available_patterns_message (module_TEMPLATES w)]))
    | Some template =>
        match Fs.mkdir_parents true (fs w) path with
        | inl e => (Raise e, w)
        | inr fs1 =>
            let agent_file := truediv path (name +:+ ".md") in
            if Fs.exists_ fs1 agent_file then
              (SystemExit 1,
               with_stdout (with_fs w fs1)
                 (stdout w ++ [already_exists_message agent_file]))
            else
              match Fs.write_text fs1 agent_file (content name template) with
              | inl e => (Raise e, with_fs w fs1)
              | inr fs2 => (Return agent_file, with_fs w fs2)
              end
        end
    end.
Proof.
  unfold create_agent, mbind, M_bind, mret, M_ret, print, sys_exit,
    get_TEMPLATES, getitem, Path_mkdir, Path_exists, Path_write_text, lift_fs,
    dict_in, Fs.mkdir.
  destruct (validate_name name); keep_calls; [|reflexivity].
  destruct (dict_get (module_TEMPLATES w) pattern) as [template|]; keep_calls.
  - destruct (Fs.mkdir_parents true (fs w) path) as [e|fs1]; keep_calls;
      [reflexivity|].
    destruct (Fs.exists_ fs1 (truediv path (name +:+ ".md"))); keep_calls;
      [reflexivity|].
    destruct (Fs.write_text fs1 (truediv path (name +:+ ".md")) (content name template));
      reflexivity.
  - unfold with_stdout. simpl. now rewrite <- app_assoc.
Qed.

(** Where [mkdir] has left a directory and nothing has the file's name,
    [write_text] creates the file. *)
Lemma write_text_new (fs1 : filesystem) path c data :
  Fs.is_dir fs1 path = true -> Fs.exists_ fs1 (c :: path) = false ->
  Fs.write_text fs1 (c :: path) data = inr (<[c :: path := File data]> fs1).
Proof.
  intros D E. apply is_dir_lookup in D. unfold Fs.write_text. rewrite D.
  unfold Fs.exists_ in E. rewrite lookup_node_cons in E.
  now destruct (fs1 !! (c :: path)).
Qed.

(** The successful run, spelled out. *)
Lemma create_agent_success name path pattern template w :
  Fs.consistent (fs w) ->
  validate_name name = true ->
  dict_get (module_TEMPLATES w) pattern = Some template ->
  Fs.clear_of_files (fs w) path = true ->
  Fs.exists_ (fs w) (truediv path (name +:+ ".md")) = false ->
  exists fs1,
    Fs.mkdir_parents true (fs w) path = inr fs1
    /\ (forall q, q ∈ Fs.chain path -> Fs.is_dir fs1 q = true)
    /\ create_agent name path pattern w =
       (Return (truediv path (name +:+ ".md")),
        with_fs w (<[truediv path (name +:+ ".md") := File (content name template)]> fs1)).
Proof.
  intros C V G Hclear E.
  destruct (mkdir_parents_clear _ _ C Hclear) as (fs1 & R & Hdirs).
  exists fs1. split; [assumption|]. split; [assumption|].
  rewrite create_agent_unfold, V, G, R. cbn [negb]. cbv zeta.
  assert (E1 : Fs.exists_ fs1 (truediv path (name +:+ ".md")) = false).
  { unfold Fs.exists_, truediv in *. rewrite lookup_node_cons in *.
    rewrite (mkdir_parents_frame _ _ _ R); [assumption|].
    intros Hin. now apply (not_in_chain_longer (name +:+ ".md") path) in Hin. }
  rewrite E1. unfold truediv.
  rewrite write_text_new; [reflexivity| |assumption].
  apply Hdirs, chain_self.
Qed.

(** [create_agent] never changes what a path that exists names. *)
Lemma create_agent_keeps_existing name path pattern w q n :
  fs w !! q = Some n -> q = truediv path (name +:+ ".md") ->
  fs (snd (create_agent name path pattern w)) !! q = Some n.
Proof.
  intros Hq ->. rewrite create_agent_unfold.
  destruct (negb (validate_name name)); [assumption|].
  destruct (dict_get (module_TEMPLATES w) pattern); [|assumption].
  destruct (Fs.mkdir_parents true (fs w) path) as [e|fs1] eqn:R; [assumption|].
  pose proof (mkdir_parents_preserves _ _ _ R _ _ Hq) as H1.
  cbv zeta. unfold Fs.exists_, truediv in *. rewrite lookup_node_cons, H1.
  assumption.
Qed.

(** The module global is only read. *)
Lemma create_agent_TEMPLATES name path pattern w :
  module_TEMPLATES (snd (create_agent name path pattern w)) = module_TEMPLATES w.
Proof.
  rewrite create_agent_unfold.
  destruct (negb (validate_name name)); [reflexivity|].
  destruct (dict_get (module_TEMPLATES w) pattern); [|reflexivity].
  destruct (Fs.mkdir_parents true (fs w) path) as [e|fs1]; [reflexivity|].
  cbv zeta. destruct (Fs.exists_ fs1 (truediv path (name +:+ ".md"))); [reflexivity|].
  destruct (Fs.write_text fs1 (truediv path (name +:+ ".md")) _); reflexivity.
Qed.

(** The f-string and the layout of the specification agree as soon as the
    template has a capability. *)
Lemma append_assoc (s t u : string) : (s +:+ t) +:+ u = s +:+ t +:+ u.
Proof.
  induction s as [|a s IH]; [reflexivity|].
  change (String a ((s +:+ t) +:+ u) = String a (s +:+ t +:+ u)). now rewrite IH.
Qed.

Lemma join_unlines (lines : list string) (rest : string) :
  lines <> [] -> join nl lines +:+ nl +:+ rest = unlines lines +:+ rest.
Proof.
  induction lines as [|l lines IH]; [congruence|]. intros _.
  destruct lines as [|l' lines].
  - change (l +:+ nl +:+ rest = (l +:+ nl +:+ EmptyString) +:+ rest).
    now rewrite !append_assoc.
  - change ((l +:+ nl +:+ join nl (l' :: lines)) +:+ nl +:+ rest
            = (l +:+ nl +:+ unlines (l' :: lines)) +:+ rest).
    rewrite !append_assoc. do 2 f_equal. now apply IH.
Qed.

Lemma unlines_app (l1 l2 : list string) :
  unlines (l1 ++ l2) = unlines l1 +:+ unlines l2.
Proof.
  induction l1 as [|l l1 IH]; [reflexivity|].
  change (l +:+ nl +:+ unlines (l1 ++ l2) = (l +:+ nl +:+ unlines l1) +:+ unlines l2).
  now rewrite IH, !append_assoc.
Qed.

Lemma content_layout name template :
  tools template <> [] ->
  content name template =
  layout name (tools template) (model template) (prompt template).
Proof.
  intros Hne. unfold content, layout, tools_yaml.
  rewrite join_unlines by (destruct (tools template); [congruence|discriminate]).
  rewrite !unlines_app.
  change (unlines ["---"; "name: " +:+ name; description_line; "tools:"])
    with ("---" +:+ nl +:+ ("name: " +:+ name) +:+ nl +:+ description_line +:+ nl
          +:+ "tools:" +:+ nl +:+ EmptyString).
  change (unlines ["model: " +:+ model template; "---"; EmptyString])
    with (("model: " +:+ model template) +:+ nl +:+ "---" +:+ nl +:+ EmptyString
          +:+ nl +:+ EmptyString).
  rewrite !append_assoc. reflexivity.
Qed.

Lemma TEMPLATES_tools pattern template :
  dict_get TEMPLATES pattern = Some template -> tools template <> [].
Proof.
  intros H. apply dict_get_Some_In in H. simpl in H.
  repeat (destruct H as [[= <- <-]|H]; [discriminate|]). contradiction.
Qed.

End CreateAgent.

(* ===================================================================== *)
(** * The claims of the specification *)
(* ===================================================================== *)

Section Claims.

Implicit Types (name pattern : string) (path : Path) (w : world)
  (template : Template).

Lemma mkdir_parents_chain (fs0 : filesystem) path :
  (forall q, q ∈ Fs.chain path -> Fs.is_dir fs0 q = true) ->
  Fs.mkdir_parents true fs0 path = inr fs0.
Proof.
  intros H. destruct path as [|c up]; [reflexivity|].
  assert (D : Fs.is_dir fs0 (c :: up) = true) by apply H, chain_self.
  assert (U : Fs.is_dir fs0 up = true).
  { apply H. simpl. apply elem_of_cons. right. apply chain_self. }
  pose proof D as D'. apply is_dir_lookup in D'. rewrite lookup_node_cons in D'.
  apply is_dir_lookup in U. simpl. rewrite U, D'. simpl. now rewrite D.
Qed.

Lemma consistent_clear (fs0 : filesystem) path :
  Fs.consistent fs0 -> Fs.is_dir fs0 path = true -> Fs.clear_of_files fs0 path = true.
Proof.
  intros C D. unfold Fs.clear_of_files. apply forallb_forall. intros q Hq.
  apply list_elem_of_In in Hq. pose proof (consistent_chain _ _ C D q Hq) as Dq.
  unfold Fs.is_dir in Dq. unfold Fs.is_file.
  now destruct (Fs.lookup_node fs0 q) as [[]|].
Qed.

Lemma prints_spec (lines : list string) w :
  prints lines w = with_stdout w (stdout w ++ lines).
Proof.
  revert w. induction lines as [|l lines IH]; intros w.
  - cbn [prints fold_left]. rewrite app_nil_r. now destruct w.
  - change (prints (l :: lines) w)
      with (prints lines (with_stdout w (stdout w ++ [l]))).
    rewrite IH. cbn [with_stdout stdout fs stderr module_TEMPLATES].
    now rewrite <- app_assoc.
Qed.

Lemma main_unfold (args : Namespace) w :
  main args w =
  match create_agent (args_name args) (args_path args) (args_pattern args) w with
  | (Return agent_file, w1) =>
      (Return tt,
       with_stdout w1
         (stdout w1 ++
          ["Created agent: " +:+ path_str agent_file;
           "Pattern: " +:+ args_pattern args;
           EmptyString;
           "Next steps:";
           "  1. Edit " +:+ path_str agent_file;
           "  2. Update the description to specify when to use this agent";
           "  3. Customize the system prompt for your use case";
           "  4. Adjust tools and model as needed";
           EmptyString;
           "Test your agent:";
           "  claude --agent " +:+ args_name args]))
  | (SystemExit c, w1) => (SystemExit c, w1)
  | (Raise e, w1) => (Raise e, w1)
  end.
Proof.
  unfold main. unfold mbind at 1. unfold M_bind at 1.
  generalize (create_agent (args_name args) (args_path args) (args_pattern args) w).
  intros [[agent_file|c|e] w1]; [|reflexivity..].
  rewrite <- prints_spec. reflexivity.
Qed.

(** C2.  With a valid name and a known pattern, on a consistent file
    system where no file stands in the way of the directory and the target
    does not exist yet, the first call returns [path / (name + ".md")] and
    writes the file; the same call repeated then prints the already-exists
    error and exits with status 1, leaving the file system, and with it the
    file, as the first call left it.  And whatever the pattern and the
    state, a call never changes a target that exists. *)
Theorem create_agent_twice name path pattern template w :
  Fs.consistent (fs w) ->
  validate_name name = true ->
  dict_get (module_TEMPLATES w) pattern = Some template ->
  Fs.clear_of_files (fs w) path = true ->
  Fs.exists_ (fs w) (truediv path (name +:+ ".md")) = false ->
  let agent_file := truediv path (name +:+ ".md") in
  (exists w1,
     create_agent name path pattern w = (Return agent_file, w1)
     /\ fs w1 !! agent_file = Some (File (content name template))
     /\ create_agent name path pattern w1 =
        (SystemExit 1,
         with_stdout w1 (stdout w1 ++ [already_exists_message agent_file])))
  /\ (forall pattern' w' n,
        fs w' !! agent_file = Some n ->
        fs (snd (create_agent name path pattern' w')) !! agent_file = Some n).
Proof.
  intros C V G Hclear E agent_file. split.
  - destruct (create_agent_success _ _ _ _ _ C V G Hclear E) as (fs1 & R & Hdirs & Run).
    eexists. split; [exact Run|]. fold agent_file. split.
    + cbn [fs with_fs]. apply lookup_insert_eq.
    + rewrite create_agent_unfold, V. cbn [negb module_TEMPLATES with_fs fs].
      rewrite G.
      assert (Hdirs' : forall q, q ∈ Fs.chain path ->
                Fs.is_dir (<[agent_file := File (content name template)]> fs1) q = true).
      { intros q Hq. destruct q as [|a q]; [reflexivity|].
        rewrite is_dir_insert_ne; [auto| |discriminate].
        intros Eq. symmetry in Eq. revert Eq. now apply not_in_chain_longer. }
      rewrite (mkdir_parents_chain _ _ Hdirs'). cbv zeta. fold agent_file.
      assert (X : Fs.exists_ (<[agent_file := File (content name template)]> fs1)
                    agent_file = true).
      { unfold Fs.exists_, agent_file, truediv.
        now rewrite lookup_node_cons, lookup_insert_eq. }
      rewrite X. reflexivity.
  - intros pattern' w' n Hn. now apply create_agent_keeps_existing.
Qed.

Lemma create_agent_twice_witness :
  let agent_file := ["code-reviewer.md"; "agents"; "tmp"] in
  (exists w1,
     create_agent "code-reviewer" ["agents"; "tmp"] "reviewer" (initial_world ∅)
     = (Return agent_file, w1)
     /\ fs w1 !! agent_file
        = Some (File (content "code-reviewer"
                        {| tools := ["Read"; "Grep"; "Glob"; "Bash"];
                           model := "sonnet";
                           prompt := reviewer_prompt |}))
     /\ create_agent "code-reviewer" ["agents"; "tmp"] "reviewer" w1 =
        (SystemExit 1,
         with_stdout w1 (stdout w1 ++ [already_exists_message agent_file])))
  /\ (forall pattern' w' n,
        fs w' !! agent_file = Some n ->
        fs (snd (create_agent "code-reviewer" ["agents"; "tmp"] pattern' w'))
          !! agent_file = Some n).
Proof.
  apply (create_agent_twice "code-reviewer" ["agents"; "tmp"] "reviewer"
           {| tools := ["Read"; "Grep"; "Glob"; "Bash"]; model := "sonnet";
              prompt := reviewer_prompt |} (initial_world ∅)).
  - apply map_Forall_empty.
  - reflexivity.
  - reflexivity.
  - reflexivity.
  - reflexivity.
Defined.

(** C3.  For each of the seven pattern names the registry has an entry,
    and a successful call writes a file that is exactly the frontmatter with
    that entry's tools, in registry order, and model, then a blank line and
    the entry's prompt.  In particular the call for [code-reviewer] with the
    [reviewer] pattern in [/tmp/agents], from an empty file system, creates
    the two directories and [/tmp/agents/code-reviewer.md] with the lines
    shown. *)
Theorem create_agent_renders_pattern :
  (forall pattern name path w,
     In pattern ["researcher"; "reviewer"; "specialist"; "builder"; "quick";
                 "orchestrator"; "planner"] ->
     module_TEMPLATES w = TEMPLATES ->
     Fs.consistent (fs w) ->
     validate_name name = true ->
     Fs.clear_of_files (fs w) path = true ->
     Fs.exists_ (fs w) (truediv path (name +:+ ".md")) = false ->
     exists template w1,
       dict_get TEMPLATES pattern = Some template
       /\ create_agent name path pattern w
          = (Return (truediv path (name +:+ ".md")), w1)
       /\ fs w1 !! truediv path (name +:+ ".md")
          = Some (File (layout name (tools template) (model template)
                          (prompt template))))
  /\ create_agent "code-reviewer" ["agents"; "tmp"] "reviewer" (initial_world ∅)
     = (Return ["code-reviewer.md"; "agents"; "tmp"],
        with_fs (initial_world ∅)
          (<[ ["code-reviewer.md"; "agents"; "tmp"] :=
                File (unlines ["---";
                               "name: code-reviewer";
                               description_line;
                               "tools:";
                               "  - Read";
                               "  - Grep";
                               "  - Glob";
                               "  - Bash";
                               "model: sonnet";
                               "---";
                               EmptyString]
                      +:+ reviewer_prompt +:+ nl) ]>
             (<[ ["agents"; "tmp"] := Dir ]> (<[ ["tmp"] := Dir ]> ∅)))).
Proof.
  split; [|vm_compute; reflexivity].
  intros pattern name path w Hin Hreg C V Hclear E.
  assert (G : exists template, dict_get TEMPLATES pattern = Some template).
  { apply dict_in_get, dict_in_keys. now rewrite keys_TEMPLATES. }
  destruct G as (template & G). exists template.
  rewrite <- Hreg in G.
  destruct (create_agent_success _ _ _ _ _ C V G Hclear E) as (fs1 & _ & _ & Run).
  rewrite Hreg in G. eexists. split; [exact G|]. split; [exact Run|].
  cbn [fs with_fs]. rewrite lookup_insert_eq.
  now rewrite (content_layout _ _ (TEMPLATES_tools _ _ G)).
Qed.

Lemma create_agent_renders_pattern_witness :
  exists template w1,
    dict_get TEMPLATES "quick" = Some template
    /\ create_agent "quick-search" ["agents"; ".claude"; "home"] "quick"
         (initial_world ∅)
       = (Return ["quick-search.md"; "agents"; ".claude"; "home"], w1)
    /\ fs w1 !! ["quick-search.md"; "agents"; ".claude"; "home"]
       = Some (File (layout "quick-search" (tools template) (model template)
                       (prompt template))).
Proof.
  apply (proj1 create_agent_renders_pattern "quick" "quick-search"
           ["agents"; ".claude"; "home"] (initial_world ∅)).
  - simpl. tauto.
  - reflexivity.
  - apply map_Forall_empty.
  - reflexivity.
  - reflexivity.
  - reflexivity.
Defined.

(** C4.  For every accepted name and every template of the registry, the
    file a successful call writes has the fixed layout: [---], the [name:]
    line, the [description:] line, [tools:], one line per capability
    indented by two spaces and a hyphen, in registry order, the [model:]
    line, [---], one blank line, the prompt body and a final line feed. *)
Theorem generated_file_layout name path pattern template w :
  module_TEMPLATES w = TEMPLATES ->
  dict_get TEMPLATES pattern = Some template ->
  Fs.consistent (fs w) ->
  validate_name name = true ->
  Fs.clear_of_files (fs w) path = true ->
  Fs.exists_ (fs w) (truediv path (name +:+ ".md")) = false ->
  exists w1,
    create_agent name path pattern w = (Return (truediv path (name +:+ ".md")), w1)
    /\ fs w1 !! truediv path (name +:+ ".md")
       = Some (File (unlines (["---";
                               "name: " +:+ name;
                               "description: " +:+ dquote
                                 +:+ "TODO: Describe when to use this agent"
                                 +:+ dquote;
                               "tools:"]
                              ++ map (fun capability => "  - " +:+ capability)
                                   (tools template)
                              ++ ["model: " +:+ model template;
                                  "---";
                                  EmptyString])
                     +:+ prompt template +:+ nl)).
Proof.
  intros Hreg G C V Hclear E. pose proof G as G'. rewrite <- Hreg in G'.
  destruct (create_agent_success _ _ _ _ _ C V G' Hclear E) as (fs1 & _ & _ & Run).
  eexists. split; [exact Run|]. cbn [fs with_fs]. rewrite lookup_insert_eq.
  rewrite (content_layout _ _ (TEMPLATES_tools _ _ G)). reflexivity.
Qed.

Lemma generated_file_layout_witness :
  exists w1,
    create_agent "frontend-dev" ["agents"; ".claude"] "builder" (initial_world ∅)
    = (Return ["frontend-dev.md"; "agents"; ".claude"], w1)
    /\ fs w1 !! ["frontend-dev.md"; "agents"; ".claude"]
       = Some (File (unlines ["---";
                              "name: frontend-dev";
                              "description: " +:+ dquote
                                +:+ "TODO: Describe when to use this agent"
                                +:+ dquote;
                              "tools:";
                              "  - Read";
                              "  - Write";
                              "  - Edit";
                              "  - Grep";
                              "  - Glob";
                              "  - Bash";
                              "  - TodoWrite";
                              "model: sonnet";
                              "---";
                              EmptyString]
                     +:+ builder_prompt +:+ nl)).
Proof.
  apply (generated_file_layout "frontend-dev" ["agents"; ".claude"] "builder"
           {| tools := ["Read"; "Write"; "Edit"; "Grep"; "Glob"; "Bash"; "TodoWrite"];
              model := "sonnet"; prompt := builder_prompt |} (initial_world ∅)).
  - reflexivity.
  - reflexivity.
  - apply map_Forall_empty.
  - reflexivity.
  - reflexivity.
  - reflexivity.
Defined.

(** C5, as stated, fails: the name is checked before the pattern, so with
    a rejected name an unknown pattern is never reported. *)
Lemma unknown_pattern_not_reported_for_invalid_name :
  ~ (forall name path pattern w,
       module_TEMPLATES w = TEMPLATES ->
       ~ In pattern (keys TEMPLATES) ->
       create_agent name path pattern w =
       (SystemExit 1,
        with_stdout w (stdout w ++ [unknown_pattern_message pattern;
                                    available_patterns_message TEMPLATES]))).
Proof.
  intros H.
  specialize (H "Invalid_Name" ["agents"; "tmp"] "bogus" (initial_world ∅) eq_refl).
  assert (N : ~ In "bogus" (keys TEMPLATES)).
  { intros HIn. apply dict_in_keys in HIn. discriminate HIn. }
  specialize (H N). vm_compute in H. discriminate H.
Qed.

(** C5, amended.  For every accepted name and every pattern that is not
    one of the seven keys, the call prints the unknown-pattern line and the
    line listing the seven pattern names to standard output, exits with
    status 1, and leaves the file system as it was. *)
Theorem unknown_pattern_fails name path pattern w :
  module_TEMPLATES w = TEMPLATES ->
  validate_name name = true ->
  ~ In pattern ["researcher"; "reviewer"; "specialist"; "builder"; "quick";
                "orchestrator"; "planner"] ->
  create_agent name path pattern w =
  (SystemExit 1,
   with_stdout w
     (stdout w ++
      ["Error: Unknown pattern '" +:+ pattern +:+ "'";
       "Available patterns: researcher, reviewer, specialist, builder, quick, orchestrator, planner"]))
  /\ fs (snd (create_agent name path pattern w)) = fs w.
Proof.
  intros Hreg V Hnot.
  assert (G : dict_get (module_TEMPLATES w) pattern = None).
  { rewrite Hreg. destruct (dict_get TEMPLATES pattern) eqn:G; [|reflexivity].
    exfalso. apply Hnot. rewrite <- keys_TEMPLATES. apply dict_in_keys.
    unfold dict_in. now rewrite G. }
  assert (Run : create_agent name path pattern w =
    (SystemExit 1,
     with_stdout w
       (stdout w ++
        ["Error: Unknown pattern '" +:+ pattern +:+ "'";
         "Available patterns: researcher, reviewer, specialist, builder, quick, orchestrator, planner"]))).
  { rewrite create_agent_unfold, V, G, Hreg. reflexivity. }
  split; [exact Run|]. now rewrite Run.
Qed.

Lemma unknown_pattern_fails_witness :
  create_agent "code-reviewer" ["agents"; "tmp"] "bogus" (initial_world ∅) =
  (SystemExit 1,
   with_stdout (initial_world ∅)
     (stdout (initial_world ∅) ++
      ["Error: Unknown pattern '" +:+ "bogus" +:+ "'";
       "Available patterns: researcher, reviewer, specialist, builder, quick, orchestrator, planner"]))
  /\ fs (snd (create_agent "code-reviewer" ["agents"; "tmp"] "bogus" (initial_world ∅)))
     = fs (initial_world ∅).
Proof.
  apply (unknown_pattern_fails "code-reviewer" ["agents"; "tmp"] "bogus"
           (initial_world ∅)).
  - reflexivity.
  - reflexivity.
  - simpl. intuition discriminate.
Defined.

(** C6.  For every name the validator rejects, whatever the directory and
    the pattern, the call prints the invalid-name line to standard output
    and exits with status 1; nothing else changes: no directory and no file
    is created. *)
Theorem invalid_name_fails name path pattern w :
  validate_name name = false ->
  create_agent name path pattern w =
  (SystemExit 1, with_stdout w (stdout w ++ [invalid_name_message name]))
  /\ fs (snd (create_agent name path pattern w)) = fs w.
Proof.
  intros V. rewrite create_agent_unfold, V. now split.
Qed.

Lemma invalid_name_fails_witness :
  create_agent "Invalid_Name" ["agents"; "tmp"] "specialist" (initial_world ∅) =
  (SystemExit 1,
   with_stdout (initial_world ∅)
     (stdout (initial_world ∅) ++ [invalid_name_message "Invalid_Name"]))
  /\ fs (snd (create_agent "Invalid_Name" ["agents"; "tmp"] "specialist"
                (initial_world ∅)))
     = fs (initial_world ∅).
Proof.
  apply (invalid_name_fails "Invalid_Name" ["agents"; "tmp"] "specialist"
           (initial_world ∅)).
  reflexivity.
Defined.

(** C7.  On success the target directory and every directory above it
    exist, whether the chain was missing altogether, partly there, or
    already complete; making the directory again changes nothing and raises
    nothing; and where the target directory existed before the call, the
    only change to the file system is the new file. *)
Theorem create_agent_makes_directories name path pattern template w :
  Fs.consistent (fs w) ->
  validate_name name = true ->
  dict_get (module_TEMPLATES w) pattern = Some template ->
  Fs.clear_of_files (fs w) path = true \/ Fs.is_dir (fs w) path = true ->
  Fs.exists_ (fs w) (truediv path (name +:+ ".md")) = false ->
  exists w1,
    create_agent name path pattern w = (Return (truediv path (name +:+ ".md")), w1)
    /\ (forall q, q ∈ Fs.chain path -> Fs.is_dir (fs w1) q = true)
    /\ Fs.mkdir true true (fs w1) path = inr (fs w1)
    /\ (Fs.is_dir (fs w) path = true ->
        fs w1 = <[truediv path (name +:+ ".md") := File (content name template)]> (fs w)).
Proof.
  intros C V G Hdir E.
  assert (Hclear : Fs.clear_of_files (fs w) path = true).
  { destruct Hdir as [H|H]; [assumption|]. now apply consistent_clear. }
  destruct (create_agent_success _ _ _ _ _ C V G Hclear E) as (fs1 & R & Hdirs & Run).
  eexists. split; [exact Run|]. cbn [fs with_fs].
  assert (Hdirs' : forall q, q ∈ Fs.chain path ->
            Fs.is_dir (<[truediv path (name +:+ ".md") := File (content name template)]> fs1) q
            = true).
  { intros q Hq. destruct q as [|a q]; [reflexivity|].
    rewrite is_dir_insert_ne; [auto| |discriminate].
    intros Eq. symmetry in Eq. revert Eq. now apply not_in_chain_longer. }
  split; [exact Hdirs'|]. split.
  - unfold Fs.mkdir. now apply mkdir_parents_chain.
  - intros D. rewrite (mkdir_parents_existing _ _ C D) in R. now injection R as <-.
Qed.

Lemma create_agent_makes_directories_witness :
  exists w1,
    create_agent "code-reviewer" ["agents"; ".claude"; "ada"; "home"] "specialist"
      (initial_world ∅)
    = (Return ["code-reviewer.md"; "agents"; ".claude"; "ada"; "home"], w1)
    /\ (forall q, q ∈ Fs.chain ["agents"; ".claude"; "ada"; "home"] ->
        Fs.is_dir (fs w1) q = true)
    /\ Fs.mkdir true true (fs w1) ["agents"; ".claude"; "ada"; "home"] = inr (fs w1)
    /\ (Fs.is_dir (fs (initial_world ∅)) ["agents"; ".claude"; "ada"; "home"] = true ->
        fs w1 = <[ ["code-reviewer.md"; "agents"; ".claude"; "ada"; "home"] :=
                   File (content "code-reviewer"
                           {| tools := ["Read"; "Write"; "Edit"; "Grep"; "Glob"; "Bash"];
                              model := "sonnet";
                              prompt := specialist_prompt |}) ]>
                 (fs (initial_world ∅))).
Proof.
  apply (create_agent_makes_directories "code-reviewer"
           ["agents"; ".claude"; "ada"; "home"] "specialist"
           {| tools := ["Read"; "Write"; "Edit"; "Grep"; "Glob"; "Bash"];
              model := "sonnet"; prompt := specialist_prompt |} (initial_world ∅)).
  - apply map_Forall_empty.
  - reflexivity.
  - reflexivity.
  - left. reflexivity.
  - reflexivity.
Defined.

Lemma script_TEMPLATES (args : Namespace) w :
  module_TEMPLATES (snd (main args w)) = module_TEMPLATES w
  /\ module_TEMPLATES (snd (script args w)) = module_TEMPLATES w.
Proof.
  unfold script. rewrite main_unfold.
  pose proof (create_agent_TEMPLATES (args_name args) (args_path args)
                (args_pattern args) w) as H.
  destruct (create_agent _ _ _ w) as [[agent_file|c|e] w1]; now split.
Qed.

(** C8.  The keys of the registry are exactly the seven names, each once;
    a lookup succeeds exactly on those keys and returns the entry stored
    under the very key asked for (so a key in another case is not found);
    every entry has at least one capability, a non-empty model identifier
    and a non-empty prompt; and neither [create_agent] nor [main] nor the
    script as a whole changes the module global. *)
Theorem registry_fixed :
  keys TEMPLATES =
    ["researcher"; "reviewer"; "specialist"; "builder"; "quick"; "orchestrator";
     "planner"]
  /\ NoDup (keys TEMPLATES)
  /\ (forall k, dict_in k TEMPLATES = true <->
                In k ["researcher"; "reviewer"; "specialist"; "builder"; "quick";
                      "orchestrator"; "planner"])
  /\ (forall k template, dict_get TEMPLATES k = Some template -> In (k, template) TEMPLATES)
  /\ dict_get TEMPLATES "Reviewer" = None
  /\ Forall (fun entry => tools (snd entry) <> [] /\ model (snd entry) <> EmptyString
                          /\ prompt (snd entry) <> EmptyString) TEMPLATES
  /\ (forall name path pattern w,
        module_TEMPLATES (snd (create_agent name path pattern w)) = module_TEMPLATES w)
  /\ (forall args w, module_TEMPLATES (snd (main args w)) = module_TEMPLATES w)
  /\ (forall args w, module_TEMPLATES (snd (script args w)) = module_TEMPLATES w).
Proof.
  split; [reflexivity|]. split.
  { rewrite keys_TEMPLATES.
    repeat (apply NoDup_cons; split;
            [rewrite ?elem_of_cons, elem_of_nil; intuition discriminate|]).
    apply NoDup_nil_2. }
  split. { intros k. rewrite dict_in_keys. now rewrite keys_TEMPLATES. }
  split. { intros k template. apply dict_get_Some_In. }
  split; [reflexivity|]. split.
  { repeat (constructor; [repeat split; discriminate|]). constructor. }
  split. { apply create_agent_TEMPLATES. }
  split; intros args w; apply script_TEMPLATES.
Qed.

Lemma registry_fixed_witness :
  In ("quick",
      {| tools := ["Read"; "Grep"; "Glob"]; model := "haiku"; prompt := quick_prompt |})
     TEMPLATES.
Proof.
  apply (proj1 (proj2 (proj2 (proj2 registry_fixed))) "quick"). reflexivity.
Defined.

(** C9, as stated, fails: a failing run need not write anything to the
    error stream.  The call with the rejected name [Invalid_Name] ends with
    status 1, its diagnostic is on standard output and the error stream is
    as it was. *)
Lemma diagnostics_go_to_stdout :
  ~ (forall args w,
       fst (script args w) <> 0%Z -> stderr (snd (script args w)) <> stderr w).
Proof.
  intros H.
  apply (H {| args_name := "Invalid_Name"; args_path := ["agents"; "tmp"];
              args_pattern := "specialist" |} (initial_world ∅)).
  - vm_compute. discriminate.
  - reflexivity.
Qed.

(** The shapes a run of the script can end in: with status 0 and the
    target written, or with status 1 and the target as it was. *)
Lemma script_cases (args : Namespace) w :
  let name := args_name args in
  let pattern := args_pattern args in
  let agent_file := truediv (args_path args) (name +:+ ".md") in
  let status := fst (script args w) in
  let w' := snd (script args w) in
  (status = 0%Z
   /\ Fs.exists_ (fs w) agent_file = false
   /\ stderr w' = stderr w
   /\ exists template,
        dict_get (module_TEMPLATES w) pattern = Some template
        /\ fs w' !! agent_file = Some (File (content name template)))
  \/ (status = 1%Z
      /\ fs w' !! agent_file = fs w !! agent_file
      /\ ((validate_name name = false
           /\ stdout w' = stdout w ++ [invalid_name_message name]
           /\ stderr w' = stderr w)
          \/ (dict_in pattern (module_TEMPLATES w) = false
              /\ stdout w' = stdout w ++
                   [unknown_pattern_message pattern;
                    available_patterns_message (module_TEMPLATES w)]
              /\ stderr w' = stderr w)
          \/ (Fs.exists_ (fs w') agent_file = true
              /\ stdout w' = stdout w ++ [already_exists_message agent_file]
              /\ stderr w' = stderr w)
          \/ (exists e, stdout w' = stdout w
                        /\ stderr w' = stderr w ++ [Traceback e]))).
Proof.
  intros name pattern agent_file status w'. subst status w'.
  unfold script. rewrite main_unfold, create_agent_unfold.
  fold name pattern.
  destruct (validate_name name) eqn:V; cbn [negb].
  2:{ right. cbn [fst snd]. split; [reflexivity|]. split; [reflexivity|].
      left. now repeat split. }
  destruct (dict_get (module_TEMPLATES w) pattern) as [template|] eqn:G.
  2:{ right. cbn [fst snd]. split; [reflexivity|]. split; [reflexivity|].
      right. left. unfold dict_in. rewrite G. now repeat split. }
  destruct (Fs.mkdir_parents true (fs w) (args_path args)) as [e|fs1] eqn:R.
  { right. cbn [fst snd]. split; [reflexivity|]. split; [reflexivity|].
    right. right. right. exists e. now split. }
  cbv zeta. fold agent_file.
  assert (F : fs1 !! agent_file = fs w !! agent_file).
  { apply (mkdir_parents_frame _ _ _ R). intros Hin.
    now apply (not_in_chain_longer (name +:+ ".md") (args_path args)) in Hin. }
  destruct (Fs.exists_ fs1 agent_file) eqn:X.
  { right. cbn [fst snd fs with_fs with_stdout stdout stderr].
    split; [reflexivity|]. split; [exact F|]. right. right. left. now repeat split. }
  assert (Wr : Fs.write_text fs1 agent_file (content name template)
               = inr (<[agent_file := File (content name template)]> fs1)).
  { apply write_text_new; [|exact X]. exact (mkdir_parents_is_dir _ _ _ R). }
  rewrite Wr. left. cbn [fst snd fs with_fs with_stdout stdout stderr].
  split; [reflexivity|]. split.
  { unfold Fs.exists_, agent_file, truediv in *. rewrite lookup_node_cons in *.
    now rewrite <- F. }
  split; [reflexivity|]. exists template. split; [reflexivity|].
  apply lookup_insert_eq.
Qed.

(** The run that finds the target in place, on a consistent file system. *)
Lemma create_agent_on_existing_target name path pattern w :
  Fs.consistent (fs w) ->
  validate_name name = true ->
  dict_in pattern (module_TEMPLATES w) = true ->
  Fs.exists_ (fs w) (truediv path (name +:+ ".md")) = true ->
  Fs.is_dir (fs w) path = true
  /\ Fs.mkdir_parents true (fs w) path = inr (fs w)
  /\ create_agent name path pattern w =
     (SystemExit 1,
      with_stdout w
        (stdout w ++ [already_exists_message (truediv path (name +:+ ".md"))])).
Proof.
  intros C V Hin X.
  destruct (dict_in_get _ _ Hin) as (template & G).
  assert (D : Fs.is_dir (fs w) path = true).
  { unfold Fs.exists_, truediv in X. rewrite lookup_node_cons in X.
    destruct (fs w !! ((name +:+ ".md") :: path)) as [n|] eqn:L; [|discriminate].
    eapply consistent_parent; eassumption. }
  pose proof (mkdir_parents_existing _ _ C D) as R.
  split; [exact D|]. split; [exact R|].
  rewrite create_agent_unfold, V, G, R. cbn [negb]. cbv zeta. rewrite X.
  now destruct w.
Qed.

(** C10, as stated, fails: a call that ends with the already-exists error
    can leave the file system exactly as it found it.  Where
    [/tmp/agents/code-reviewer.md] exists, the call for [code-reviewer] in
    [/tmp/agents] reports that the file exists and creates nothing. *)
Lemma already_exists_without_effect :
  ~ (forall name path pattern w,
       validate_name name = true ->
       dict_in pattern (module_TEMPLATES w) = true ->
       Fs.exists_ (fs w) (truediv path (name +:+ ".md")) = true ->
       fs (snd (create_agent name path pattern w)) <> fs w).
Proof.
  intros H.
  set (w := initial_world
              (<[ ["code-reviewer.md"; "agents"; "tmp"] := File "kept" ]>
                 (<[ ["agents"; "tmp"] := Dir ]> (<[ ["tmp"] := Dir ]> ∅)))).
  assert (C : Fs.consistent (fs w))
    by (apply (bool_decide_unpack (Fs.consistent (fs w))); vm_compute; exact I).
  assert (V : validate_name "code-reviewer" = true) by reflexivity.
  assert (Hin : dict_in "reviewer" (module_TEMPLATES w) = true) by reflexivity.
  assert (X : Fs.exists_ (fs w) (truediv ["agents"; "tmp"] ("code-reviewer" +:+ ".md"))
              = true) by (vm_compute; reflexivity).
  apply (H "code-reviewer" ["agents"; "tmp"] "reviewer" w V Hin X).
  destruct (create_agent_on_existing_target _ _ _ _ C V Hin X) as (_ & _ & Run).
  now rewrite Run.
Qed.

(** C10, amended.  When the call ends with the already-exists error on a
    consistent file system, the target directory and every directory above
    it were there before the call: the directory step, which runs before
    the existence check, finds them and creates nothing, and the call only
    prints its diagnostic, leaving the file system, target included, as it
    was. *)
Theorem already_exists_leaves_fs name path pattern w :
  Fs.consistent (fs w) ->
  validate_name name = true ->
  dict_in pattern (module_TEMPLATES w) = true ->
  Fs.exists_ (fs w) (truediv path (name +:+ ".md")) = true ->
  create_agent name path pattern w =
  (SystemExit 1,
   with_stdout w
     (stdout w ++ [already_exists_message (truediv path (name +:+ ".md"))]))
  /\ (forall q, q ∈ Fs.chain path -> Fs.is_dir (fs w) q = true)
  /\ Fs.mkdir true true (fs w) path = inr (fs w)
  /\ fs (snd (create_agent name path pattern w)) = fs w.
Proof.
  intros C V Hin X.
  destruct (create_agent_on_existing_target _ _ _ _ C V Hin X) as (D & R & Run).
  split; [exact Run|]. split; [now apply consistent_chain|].
  split; [exact R|]. now rewrite Run.
Qed.

Lemma already_exists_leaves_fs_witness :
  let w :=
    initial_world
      (<[ ["code-reviewer.md"; "agents"; "tmp"] := File "kept" ]>
         (<[ ["agents"; "tmp"] := Dir ]> (<[ ["tmp"] := Dir ]> ∅))) in
  create_agent "code-reviewer" ["agents"; "tmp"] "reviewer" w =
  (SystemExit 1,
   with_stdout w
     (stdout w ++
      [already_exists_message (truediv ["agents"; "tmp"] ("code-reviewer" +:+ ".md"))]))
  /\ (forall q, q ∈ Fs.chain ["agents"; "tmp"] -> Fs.is_dir (fs w) q = true)
  /\ Fs.mkdir true true (fs w) ["agents"; "tmp"] = inr (fs w)
  /\ fs (snd (create_agent "code-reviewer" ["agents"; "tmp"] "reviewer" w)) = fs w.
Proof.
  apply (already_exists_leaves_fs "code-reviewer" ["agents"; "tmp"] "reviewer"
           (initial_world
              (<[ ["code-reviewer.md"; "agents"; "tmp"] := File "kept" ]>
                 (<[ ["agents"; "tmp"] := Dir ]> (<[ ["tmp"] := Dir ]> ∅))))).
  - apply (bool_decide_unpack (Fs.consistent _)). vm_compute. exact I.
  - reflexivity.
  - reflexivity.
  - vm_compute. reflexivity.
Defined.

End Claims.

(* ===================================================================== *)
(** * Further properties of the script *)
(* ===================================================================== *)

Section Further.

Implicit Types (name pattern : string) (path : Path) (w : world)
  (template : Template) (fsys : filesystem).

(** ** Helper lemmas on the file system *)

(** Whatever [mkdir] adds is a directory. *)
Lemma mkdir_parents_adds_dirs fsys path fs' :
  Fs.mkdir_parents true fsys path = inr fs' ->
  forall q, fs' !! q = fsys !! q \/ fs' !! q = Some Dir.
Proof.
  revert fsys fs'. induction path as [|c up IH]; intros fsys fs' H q.
  - simpl in H. injection H as <-. now left.
  - apply mkdir_parents_inr in H as [H|[[-> _]|(c' & up' & fs1 & [= <- <-] & R & S)]].
    + apply os_mkdir_inr in H as (_ & _ & _ & _ & _ & ->).
      destruct (decide (c :: up = q)) as [<-|Hne].
      * right. apply lookup_insert_eq.
      * left. now apply lookup_insert_ne.
    + now left.
    + apply mkdir_single_inr in S as [O|(-> & _)]; [|now apply (IH _ _ R)].
      apply os_mkdir_inr in O as (_ & _ & _ & _ & _ & ->).
      destruct (decide (c :: up = q)) as [<-|Hne].
      * right. apply lookup_insert_eq.
      * rewrite lookup_insert_ne by assumption. now apply (IH _ _ R).
Qed.

(** A new entry in an existing directory keeps the file system
    consistent. *)
Lemma consistent_insert fsys c up n :
  Fs.consistent fsys -> fsys !! (c :: up) = None -> Fs.is_dir fsys up = true ->
  Fs.consistent (<[c :: up := n]> fsys).
Proof.
  intros C Hnew Hup q m Hq.
  assert (Keep : forall r, Fs.is_dir fsys r = true ->
                           Fs.is_dir (<[c :: up := n]> fsys) r = true).
  { intros r Hr. destruct r as [|a r]; [reflexivity|].
    rewrite is_dir_insert_ne; [assumption| |discriminate].
    intros [= <- <-]. unfold Fs.is_dir in Hr. rewrite lookup_node_cons, Hnew in Hr.
    discriminate. }
  destruct (decide (c :: up = q)) as [<-|Hne].
  - split; [discriminate|]. now apply Keep.
  - rewrite lookup_insert_ne in Hq by assumption.
    destruct (C _ _ Hq) as [Hq0 Hpar]. split; [assumption|]. now apply Keep.
Qed.

Lemma os_mkdir_consistent fsys path fs' :
  Fs.consistent fsys -> Fs.os_mkdir fsys path = inr fs' -> Fs.consistent fs'.
Proof.
  intros C H. apply os_mkdir_inr in H as (c & up & -> & Hup & Hnew & ->).
  now apply consistent_insert.
Qed.

Lemma mkdir_parents_consistent fsys path fs' :
  Fs.consistent fsys -> Fs.mkdir_parents true fsys path = inr fs' ->
  Fs.consistent fs'.
Proof.
  revert fsys fs'. induction path as [|c up IH]; intros fsys fs' C H.
  - simpl in H. now injection H as <-.
  - apply mkdir_parents_inr in H as [H|[[-> _]|(c' & up' & fs1 & [= <- <-] & R & S)]].
    + eapply os_mkdir_consistent; eassumption.
    + assumption.
    + specialize (IH _ _ C R).
      apply mkdir_single_inr in S as [O|(-> & _)]; [|assumption].
      exact (os_mkdir_consistent _ _ _ IH O).
Qed.

(** With a regular file at the directory or above it, [mkdir] fails. *)
Lemma mkdir_parents_blocked fsys path :
  Fs.consistent fsys -> Fs.clear_of_files fsys path = false ->
  exists e, Fs.mkdir_parents true fsys path = inl e.
Proof.
  intros C. induction path as [|c up IH]; intros Hb; [discriminate|].
  rewrite clear_of_files_cons in Hb. cbn [Fs.mkdir_parents]. unfold Fs.os_mkdir.
  destruct (Fs.lookup_node fsys up) as [[data|]|] eqn:Hup.
  - (* the parent is a regular file *)
    assert (Hp : fsys !! (c :: up) = None).
    { destruct (fsys !! (c :: up)) as [n|] eqn:L; [|reflexivity].
      pose proof (consistent_parent _ _ _ _ C L) as D.
      apply is_dir_lookup in D. congruence. }
    unfold Fs.is_dir. rewrite lookup_node_cons, Hp. simpl. eauto.
  - (* the parent is a directory, so the file is at the path itself *)
    assert (D : Fs.is_dir fsys up = true) by now apply is_dir_lookup.
    rewrite (consistent_clear _ _ C D), andb_true_r in Hb.
    apply negb_false_iff in Hb. unfold Fs.is_file in Hb.
    rewrite lookup_node_cons in Hb.
    destruct (fsys !! (c :: up)) as [[data|]|] eqn:L; try discriminate.
    unfold Fs.is_dir. rewrite lookup_node_cons, L. simpl. eauto.
  - (* the parent is missing: the failure comes from above *)
    assert (Hp : Fs.is_file fsys (c :: up) = false).
    { unfold Fs.is_file. rewrite lookup_node_cons.
      destruct (fsys !! (c :: up)) as [n|] eqn:L; [|reflexivity].
      pose proof (consistent_parent _ _ _ _ C L) as D.
      apply is_dir_lookup in D. congruence. }
    rewrite Hp in Hb. simpl in Hb. destruct (IH Hb) as (e & ->). eauto.
Qed.

(** Appending the same suffix to different strings gives different
    strings. *)
Lemma length_append (s t : string) :
  String.length (s +:+ t) = String.length s + String.length t.
Proof.
  induction s as [|a s IH]; [reflexivity|].
  change (S (String.length (s +:+ t)) = S (String.length s + String.length t)).
  now rewrite IH.
Qed.

Lemma append_inj_r (s1 s2 t : string) : s1 +:+ t = s2 +:+ t -> s1 = s2.
Proof.
  revert s2. induction s1 as [|a s1 IH]; intros [|b s2] E.
  - reflexivity.
  - apply (f_equal String.length) in E.
    change (String.length t = S (String.length (s2 +:+ t))) in E.
    rewrite length_append in E. lia.
  - apply (f_equal String.length) in E.
    change (S (String.length (s1 +:+ t)) = String.length t) in E.
    rewrite length_append in E. lia.
  - change (String a (s1 +:+ t) = String b (s2 +:+ t)) in E.
    injection E as -> E. f_equal. now apply IH.
Qed.

(** [str(p / c)] is [str(p)], a slash and [c], below the root. *)
Lemma join_snoc (sep : string) (l : list string) (c : string) :
  l <> [] -> join sep (l ++ [c]) = join sep l +:+ sep +:+ c.
Proof.
  induction l as [|x l IH]; [congruence|]. intros _.
  destruct l as [|y l].
  - reflexivity.
  - change (x +:+ sep +:+ join sep ((y :: l) ++ [c])
            = (x +:+ sep +:+ join sep (y :: l)) +:+ sep +:+ c).
    rewrite IH by discriminate. now rewrite !append_assoc.
Qed.

Lemma path_str_truediv path c :
  path <> [] -> path_str (truediv path c) = path_str path +:+ "/" +:+ c.
Proof.
  intros Hne. unfold path_str, truediv. simpl rev.
  rewrite join_snoc.
  - now rewrite !append_assoc.
  - intros E. apply (f_equal (@rev string)) in E. rewrite rev_involutive in E.
    now apply Hne.
Qed.

(** ** Properties *)

(** The general form of [create_agent_keeps_existing]: no entry of the file
    system is changed or removed. *)
Lemma create_agent_preserves name path pattern w q n :
  fs w !! q = Some n -> fs (snd (create_agent name path pattern w)) !! q = Some n.
Proof.
  intros Hq. rewrite create_agent_unfold.
  destruct (negb (validate_name name)); [assumption|].
  destruct (dict_get (module_TEMPLATES w) pattern) as [template|]; [|assumption].
  destruct (Fs.mkdir_parents true (fs w) path) as [e|fs1] eqn:R; [assumption|].
  pose proof (mkdir_parents_preserves _ _ _ R _ _ Hq) as H1. cbv zeta.
  destruct (Fs.exists_ fs1 (truediv path (name +:+ ".md"))) eqn:X; [assumption|].
  rewrite (write_text_new _ _ _ _ (mkdir_parents_is_dir _ _ _ R) X).
  cbn [snd fs with_fs]. rewrite lookup_insert_ne; [assumption|].
  intros <-. unfold Fs.exists_, truediv in X. rewrite lookup_node_cons, H1 in X.
  discriminate.
Qed.

Lemma create_agent_keeps_consistent name path pattern w :
  Fs.consistent (fs w) ->
  Fs.consistent (fs (snd (create_agent name path pattern w))).
Proof.
  intros C. rewrite create_agent_unfold.
  destruct (negb (validate_name name)); [assumption|].
  destruct (dict_get (module_TEMPLATES w) pattern) as [template|]; [|assumption].
  destruct (Fs.mkdir_parents true (fs w) path) as [e|fs1] eqn:R; [assumption|].
  pose proof (mkdir_parents_consistent _ _ _ C R) as C1. cbv zeta.
  destruct (Fs.exists_ fs1 (truediv path (name +:+ ".md"))) eqn:X; [assumption|].
  pose proof (mkdir_parents_is_dir _ _ _ R) as D.
  rewrite (write_text_new _ _ _ _ D X). cbn [snd fs with_fs].
  apply consistent_insert; [assumption| |assumption].
  unfold Fs.exists_, truediv in X. rewrite lookup_node_cons in X.
  now destruct (fs1 !! ((name +:+ ".md") :: path)).
Qed.

(** X1.  The validator accepts exactly the strings that start with a
    lowercase letter and go on with lowercase letters, digits and hyphens,
    and those strings followed by one line feed; nothing else. *)
Theorem validate_name_accepts_exactly s :
  validate_name s = true <->
  spec_name_ok s = true \/
  exists body, s = body +:+ nl /\ spec_name_ok body = true.
Proof. apply validate_name_iff. Qed.

(** X2.  An accepted name contains no slash, so [name + ".md"] is a single
    path component and the file is created in the target directory
    itself. *)
Theorem accepted_name_has_no_slash name :
  validate_name name = true -> contains_char "/" name = false.
Proof. apply validate_name_no_slash. Qed.

Lemma accepted_name_has_no_slash_witness :
  contains_char "/" "frontend-dev2" = false.
Proof. apply (accepted_name_has_no_slash "frontend-dev2"). reflexivity. Defined.

(** X3.  [create_agent] keeps the file system consistent, however the call
    ends: whatever exists afterwards lies in a directory. *)
Theorem create_agent_consistent name path pattern w :
  Fs.consistent (fs w) ->
  Fs.consistent (fs (snd (create_agent name path pattern w))).
Proof. apply create_agent_keeps_consistent. Qed.

Lemma create_agent_consistent_witness :
  Fs.consistent
    (fs (snd (create_agent "quick-search" ["agents"; "work"] "quick"
                (initial_world ∅)))).
Proof.
  apply (create_agent_consistent "quick-search" ["agents"; "work"] "quick"
           (initial_world ∅)).
  apply map_Forall_empty.
Defined.

(** X4.  [create_agent] only adds: however the call ends, every entry of
    the file system is kept as it was; outside the target directory, the
    directories above it and the target file nothing appears; at the target
    directory and above it only directories appear; and the call itself
    writes nothing to the error stream. *)
Theorem create_agent_only_adds name path pattern w :
  let w' := snd (create_agent name path pattern w) in
  (forall q n, fs w !! q = Some n -> fs w' !! q = Some n)
  /\ (forall q, q ∉ Fs.chain path -> q <> truediv path (name +:+ ".md") ->
                fs w' !! q = fs w !! q)
  /\ (forall q, q ∈ Fs.chain path ->
                fs w' !! q = fs w !! q \/ fs w' !! q = Some Dir)
  /\ stderr w' = stderr w.
Proof.
  cbv zeta. split; [intros q n; apply create_agent_preserves|].
  rewrite create_agent_unfold.
  destruct (negb (validate_name name)); [now repeat split; auto|].
  destruct (dict_get (module_TEMPLATES w) pattern) as [template|];
    [|now repeat split; auto].
  destruct (Fs.mkdir_parents true (fs w) path) as [e|fs1] eqn:R;
    [now repeat split; auto|].
  cbv zeta.
  assert (A : (forall q, q ∉ Fs.chain path -> fs1 !! q = fs w !! q)
              /\ (forall q, fs1 !! q = fs w !! q \/ fs1 !! q = Some Dir)).
  { split; [apply (mkdir_parents_frame _ _ _ R)|apply (mkdir_parents_adds_dirs _ _ _ R)]. }
  destruct A as [A1 A2].
  destruct (Fs.exists_ fs1 (truediv path (name +:+ ".md"))) eqn:X.
  { cbn [snd fs with_fs with_stdout stderr]. repeat split; auto. }
  rewrite (write_text_new _ _ _ _ (mkdir_parents_is_dir _ _ _ R) X).
  cbn [snd fs with_fs stderr]. repeat split.
  - intros q Hq Hne.
    rewrite lookup_insert_ne by (intros E; apply Hne; symmetry; exact E). auto.
  - intros q Hq. rewrite lookup_insert_ne; [auto|].
    intros E. symmetry in E. revert E. now apply not_in_chain_longer.
Qed.

(** X5.  With an accepted name and a known pattern, where a regular file
    stands at the target directory or above it, the call ends with an
    uncaught exception of the file system: nothing is printed and nothing
    is created. *)
Theorem create_agent_blocked_by_file name path pattern w :
  Fs.consistent (fs w) ->
  validate_name name = true ->
  dict_in pattern (module_TEMPLATES w) = true ->
  Fs.clear_of_files (fs w) path = false ->
  exists e, create_agent name path pattern w = (Raise e, w).
Proof.
  intros C V Hin Hb. destruct (dict_in_get _ _ Hin) as (template & G).
  destruct (mkdir_parents_blocked _ _ C Hb) as (e & R).
  exists e. now rewrite create_agent_unfold, V, G, R.
Qed.

Lemma create_agent_blocked_by_file_witness :
  exists e,
    create_agent "code-reviewer" ["agents"; "notes.txt"] "reviewer"
      (initial_world (<[ ["notes.txt"] := File "remember" ]> ∅))
    = (Raise e, initial_world (<[ ["notes.txt"] := File "remember" ]> ∅)).
Proof.
  apply (create_agent_blocked_by_file "code-reviewer" ["agents"; "notes.txt"]
           "reviewer" (initial_world (<[ ["notes.txt"] := File "remember" ]> ∅))).
  - apply (bool_decide_unpack (Fs.consistent _)). vm_compute. exact I.
  - reflexivity.
  - reflexivity.
  - vm_compute. reflexivity.
Defined.

(** X6.  On a consistent file system, a call that returns had all its
    checks pass: the name is accepted, the pattern is a key of the registry,
    no regular file stood at the target directory or above it, and nothing
    had the name of the target file; what it returns is
    [path / (name + ".md")], which now holds the rendered template. *)
Theorem create_agent_returns_only_if name path pattern w agent_file w1 :
  Fs.consistent (fs w) ->
  create_agent name path pattern w = (Return agent_file, w1) ->
  validate_name name = true
  /\ dict_in pattern (module_TEMPLATES w) = true
  /\ Fs.clear_of_files (fs w) path = true
  /\ Fs.exists_ (fs w) (truediv path (name +:+ ".md")) = false
  /\ agent_file = truediv path (name +:+ ".md")
  /\ exists template,
       dict_get (module_TEMPLATES w) pattern = Some template
       /\ fs w1 !! agent_file = Some (File (content name template)).
Proof.
  intros C Run. rewrite create_agent_unfold in Run.
  destruct (validate_name name) eqn:V; [|discriminate]. cbn [negb] in Run.
  unfold dict_in.
  destruct (dict_get (module_TEMPLATES w) pattern) as [template|]; [|discriminate].
  destruct (Fs.clear_of_files (fs w) path) eqn:Hclear.
  2:{ destruct (mkdir_parents_blocked _ _ C Hclear) as (e & R).
      rewrite R in Run. discriminate. }
  destruct (Fs.mkdir_parents true (fs w) path) as [e|fs1] eqn:R; [discriminate|].
  cbv zeta in Run.
  destruct (Fs.exists_ fs1 (truediv path (name +:+ ".md"))) eqn:X; [discriminate|].
  rewrite (write_text_new _ _ _ _ (mkdir_parents_is_dir _ _ _ R) X) in Run.
  injection Run as <- <-. repeat split.
  - unfold Fs.exists_, truediv in *. rewrite lookup_node_cons in *.
    rewrite <- (mkdir_parents_frame _ _ _ R); [assumption|].
    intros Hin. now apply (not_in_chain_longer (name +:+ ".md") path) in Hin.
  - exists template. split; [reflexivity|]. cbn [fs with_fs]. apply lookup_insert_eq.
Qed.

Lemma create_agent_returns_only_if_witness :
  exists w1,
    create_agent "planner-x" ["agents"] "planner" (initial_world ∅)
    = (Return (truediv ["agents"] ("planner-x" +:+ ".md")), w1)
    /\ (validate_name "planner-x" = true
        /\ dict_in "planner" (module_TEMPLATES (initial_world ∅)) = true
        /\ Fs.clear_of_files (fs (initial_world ∅)) ["agents"] = true
        /\ Fs.exists_ (fs (initial_world ∅)) (truediv ["agents"] ("planner-x" +:+ ".md"))
           = false
        /\ truediv ["agents"] ("planner-x" +:+ ".md")
           = truediv ["agents"] ("planner-x" +:+ ".md")
        /\ exists template,
             dict_get (module_TEMPLATES (initial_world ∅)) "planner" = Some template
             /\ fs w1 !! truediv ["agents"] ("planner-x" +:+ ".md")
                = Some (File (content "planner-x" template))).
Proof.
  assert (C : Fs.consistent (fs (initial_world ∅))) by apply map_Forall_empty.
  destruct (create_agent_success "planner-x" ["agents"] "planner"
              {| tools := ["Read"; "Grep"; "Glob"; "WebSearch"]; model := "opus";
                 prompt := planner_prompt |}
              (initial_world ∅) C eq_refl eq_refl eq_refl eq_refl)
    as (fs1 & _ & _ & Run).
  eexists. split; [exact Run|].
  exact (create_agent_returns_only_if _ _ _ _ _ _ C Run).
Defined.

(** X7.  Two agents with different accepted names can be created one after
    the other in the same directory: both calls return, and afterwards each
    file holds the template rendered for its own name and pattern. *)
Theorem create_two_agents name1 name2 path pattern1 pattern2 template1 template2 w :
  Fs.consistent (fs w) ->
  validate_name name1 = true ->
  validate_name name2 = true ->
  name1 <> name2 ->
  dict_get (module_TEMPLATES w) pattern1 = Some template1 ->
  dict_get (module_TEMPLATES w) pattern2 = Some template2 ->
  Fs.clear_of_files (fs w) path = true ->
  Fs.exists_ (fs w) (truediv path (name1 +:+ ".md")) = false ->
  Fs.exists_ (fs w) (truediv path (name2 +:+ ".md")) = false ->
  exists w1 w2,
    create_agent name1 path pattern1 w = (Return (truediv path (name1 +:+ ".md")), w1)
    /\ create_agent name2 path pattern2 w1
       = (Return (truediv path (name2 +:+ ".md")), w2)
    /\ fs w2 !! truediv path (name1 +:+ ".md") = Some (File (content name1 template1))
    /\ fs w2 !! truediv path (name2 +:+ ".md") = Some (File (content name2 template2)).
Proof.
  intros C V1 V2 Hne G1 G2 Hclear X1 X2.
  destruct (create_agent_success _ _ _ _ _ C V1 G1 Hclear X1) as (fs1 & R1 & Hdirs & Run1).
  set (w1 := with_fs w (<[truediv path (name1 +:+ ".md") := File (content name1 template1)]> fs1)) in *.
  assert (Hfiles : truediv path (name1 +:+ ".md") <> truediv path (name2 +:+ ".md")).
  { unfold truediv. intros [= E]. now apply append_inj_r in E. }
  assert (C1 : Fs.consistent (fs w1)).
  { pose proof (create_agent_keeps_consistent name1 path pattern1 w C) as H.
    now rewrite Run1 in H. }
  assert (D1 : Fs.is_dir (fs w1) path = true).
  { unfold w1. cbn [fs with_fs]. destruct path as [|a path']; [reflexivity|].
    rewrite is_dir_insert_ne; [apply Hdirs, chain_self| |discriminate].
    unfold truediv. intros E. apply (f_equal length) in E. simpl in E. lia. }
  assert (X2' : Fs.exists_ (fs w1) (truediv path (name2 +:+ ".md")) = false).
  { unfold w1. cbn [fs with_fs]. unfold Fs.exists_, truediv in *.
    rewrite lookup_node_cons in *. rewrite lookup_insert_ne by exact Hfiles.
    rewrite (mkdir_parents_frame _ _ _ R1); [assumption|].
    intros Hin. now apply (not_in_chain_longer (name2 +:+ ".md") path) in Hin. }
  assert (G2' : dict_get (module_TEMPLATES w1) pattern2 = Some template2) by exact G2.
  destruct (create_agent_success _ _ _ _ _ C1 V2 G2' (consistent_clear _ _ C1 D1) X2')
    as (fs2 & R2 & _ & Run2).
  exists w1. eexists. split; [exact Run1|]. split; [exact Run2|]. split.
  - pose proof (create_agent_preserves name2 path pattern2 w1
                  (truediv path (name1 +:+ ".md")) (File (content name1 template1))) as K.
    rewrite Run2 in K. apply K. unfold w1. cbn [fs with_fs]. apply lookup_insert_eq.
  - cbn [fs with_fs]. apply lookup_insert_eq.
Qed.

Lemma create_two_agents_witness :
  exists w1 w2,
    create_agent "code-reviewer" ["agents"; "tmp"] "reviewer" (initial_world ∅)
    = (Return (truediv ["agents"; "tmp"] ("code-reviewer" +:+ ".md")), w1)
    /\ create_agent "quick-search" ["agents"; "tmp"] "quick" w1
       = (Return (truediv ["agents"; "tmp"] ("quick-search" +:+ ".md")), w2)
    /\ fs w2 !! truediv ["agents"; "tmp"] ("code-reviewer" +:+ ".md")
       = Some (File (content "code-reviewer"
                       {| tools := ["Read"; "Grep"; "Glob"; "Bash"];
                          model := "sonnet"; prompt := reviewer_prompt |}))
    /\ fs w2 !! truediv ["agents"; "tmp"] ("quick-search" +:+ ".md")
       = Some (File (content "quick-search"
                       {| tools := ["Read"; "Grep"; "Glob"];
                          model := "haiku"; prompt := quick_prompt |})).
Proof.
  apply (create_two_agents "code-reviewer" "quick-search" ["agents"; "tmp"]
           "reviewer" "quick"
           {| tools := ["Read"; "Grep"; "Glob"; "Bash"]; model := "sonnet";
              prompt := reviewer_prompt |}
           {| tools := ["Read"; "Grep"; "Glob"]; model := "haiku";
              prompt := quick_prompt |}
           (initial_world ∅)).
  - apply map_Forall_empty.
  - reflexivity.
  - reflexivity.
  - discriminate.
  - reflexivity.
  - reflexivity.
  - reflexivity.
  - reflexivity.
  - reflexivity.
Defined.

(** X8.  When the file is created in a directory below the root, the
    script exits with status 0 after printing, on standard output, the
    created path (the directory, a slash, the name and [.md]), the pattern
    and the fixed block of next steps ending with the command that tests
    the agent; the error stream is untouched. *)
Theorem script_success_output (args : Namespace) template w :
  Fs.consistent (fs w) ->
  validate_name (args_name args) = true ->
  dict_get (module_TEMPLATES w) (args_pattern args) = Some template ->
  Fs.clear_of_files (fs w) (args_path args) = true ->
  Fs.exists_ (fs w) (truediv (args_path args) (args_name args +:+ ".md")) = false ->
  args_path args <> [] ->
  let created := path_str (args_path args) +:+ "/" +:+ args_name args +:+ ".md" in
  fst (script args w) = 0%Z
  /\ stdout (snd (script args w)) =
     stdout w ++
     ["Created agent: " +:+ created;
      "Pattern: " +:+ args_pattern args;
      EmptyString;
      "Next steps:";
      "  1. Edit " +:+ created;
      "  2. Update the description to specify when to use this agent";
      "  3. Customize the system prompt for your use case";
      "  4. Adjust tools and model as needed";
      EmptyString;
      "Test your agent:";
      "  claude --agent " +:+ args_name args]
  /\ stderr (snd (script args w)) = stderr w.
Proof.
  intros C V G Hclear X Hne created.
  destruct (create_agent_success _ _ _ _ _ C V G Hclear X) as (fs1 & _ & _ & Run).
  unfold script. rewrite main_unfold, Run. cbn [fst snd stdout stderr with_stdout with_fs].
  rewrite (path_str_truediv _ _ Hne). now repeat split.
Qed.

Lemma script_success_output_witness :
  let args := {| args_name := "frontend-dev"; args_path := ["agents"; ".claude"];
                 args_pattern := "builder" |} in
  let created := path_str (args_path args) +:+ "/" +:+ args_name args +:+ ".md" in
  fst (script args (initial_world ∅)) = 0%Z
  /\ stdout (snd (script args (initial_world ∅))) =
     stdout (initial_world ∅) ++
     ["Created agent: " +:+ created;
      "Pattern: " +:+ args_pattern args;
      EmptyString;
      "Next steps:";
      "  1. Edit " +:+ created;
      "  2. Update the description to specify when to use this agent";
      "  3. Customize the system prompt for your use case";
      "  4. Adjust tools and model as needed";
      EmptyString;
      "Test your agent:";
      "  claude --agent " +:+ args_name args]
  /\ stderr (snd (script args (initial_world ∅))) = stderr (initial_world ∅).
Proof.
  apply (script_success_output
           {| args_name := "frontend-dev"; args_path := ["agents"; ".claude"];
              args_pattern := "builder" |}
           {| tools := ["Read"; "Write"; "Edit"; "Grep"; "Glob"; "Bash"; "TodoWrite"];
              model := "sonnet"; prompt := builder_prompt |}
           (initial_world ∅)).
  - apply map_Forall_empty.
  - reflexivity.
  - reflexivity.
  - reflexivity.
  - reflexivity.
  - discriminate.
Defined.

(** X9.  A call that does not return adds no file: the regular files
    present afterwards, with their contents, are exactly those present
    before.  (Directories made on the way may remain.) *)
Theorem failed_call_adds_no_file name path pattern w :
  (forall agent_file, fst (create_agent name path pattern w) <> Return agent_file) ->
  forall q data,
    fs (snd (create_agent name path pattern w)) !! q = Some (File data)
    <-> fs w !! q = Some (File data).
Proof.
  intros Hfail q data. split; [|apply create_agent_preserves].
  rewrite create_agent_unfold in Hfail |- *.
  destruct (negb (validate_name name)); [auto|].
  destruct (dict_get (module_TEMPLATES w) pattern) as [template|]; [|auto].
  destruct (Fs.mkdir_parents true (fs w) path) as [e|fs1] eqn:R; [auto|].
  cbv zeta in Hfail |- *.
  assert (A : fs1 !! q = Some (File data) -> fs w !! q = Some (File data)).
  { intros H. destruct (mkdir_parents_adds_dirs _ _ _ R q) as [E|E]; congruence. }
  destruct (Fs.exists_ fs1 (truediv path (name +:+ ".md"))) eqn:X; [exact A|].
  exfalso.
  rewrite (write_text_new _ _ _ _ (mkdir_parents_is_dir _ _ _ R) X) in Hfail.
  now apply (Hfail (truediv path (name +:+ ".md"))).
Qed.

Lemma failed_call_adds_no_file_witness :
  let w :=
    initial_world
      (<[ ["code-reviewer.md"; "agents"; "tmp"] := File "kept" ]>
         (<[ ["agents"; "tmp"] := Dir ]> (<[ ["tmp"] := Dir ]> ∅))) in
  fs (snd (create_agent "code-reviewer" ["agents"; "tmp"] "reviewer" w))
    !! ["code-reviewer.md"; "agents"; "tmp"] = Some (File "kept")
  <-> fs w !! ["code-reviewer.md"; "agents"; "tmp"] = Some (File "kept").
Proof.
  apply (failed_call_adds_no_file "code-reviewer" ["agents"; "tmp"] "reviewer"
           (initial_world
              (<[ ["code-reviewer.md"; "agents"; "tmp"] := File "kept" ]>
                 (<[ ["agents"; "tmp"] := Dir ]> (<[ ["tmp"] := Dir ]> ∅))))).
  intros agent_file. vm_compute. discriminate.
Defined.

(** C9, amended.  For a run of the script in which [parser.parse_args()]
    has returned its namespace, so that [create_agent] is called:
    - a rejected name ends the run with status 1 after the invalid-name
      line was printed on standard output;
    - an accepted name with a pattern that is no key of the registry ends
      it with status 1 after the unknown-pattern line and the line of
      available patterns were printed on standard output;
    - an accepted name and a known pattern with the target already there
      end it with status 1 after the already-exists line was printed on
      standard output;
    in these three cases nothing else changes, the error stream included;
    - with a regular file at the target directory or above it, the run
      ends with status 1, nothing printed, and the interpreter's report of
      the uncaught exception on the error stream;
    - the status is 0 or 1; it is 0 exactly when the target, absent
      before, holds the rendered template afterwards, and with status 1 the
      target is as it was. *)
Theorem script_exit_status (args : Namespace) w :
  let name := args_name args in
  let pattern := args_pattern args in
  let path := args_path args in
  let agent_file := truediv path (name +:+ ".md") in
  let status := fst (script args w) in
  let w' := snd (script args w) in
  (validate_name name = false ->
   script args w = (1%Z, with_stdout w (stdout w ++ [invalid_name_message name])))
  /\ (validate_name name = true ->
      dict_in pattern (module_TEMPLATES w) = false ->
      script args w =
      (1%Z, with_stdout w (stdout w ++
                             [unknown_pattern_message pattern;
                              available_patterns_message (module_TEMPLATES w)])))
  /\ (Fs.consistent (fs w) ->
      validate_name name = true ->
      dict_in pattern (module_TEMPLATES w) = true ->
      Fs.exists_ (fs w) agent_file = true ->
      script args w =
      (1%Z, with_stdout w (stdout w ++ [already_exists_message agent_file])))
  /\ (Fs.consistent (fs w) ->
      validate_name name = true ->
      dict_in pattern (module_TEMPLATES w) = true ->
      Fs.clear_of_files (fs w) path = false ->
      exists e, script args w = (1%Z, with_stderr w (stderr w ++ [Traceback e])))
  /\ (status = 0%Z \/ status = 1%Z)
  /\ (status = 0%Z <->
      Fs.exists_ (fs w) agent_file = false
      /\ exists template,
           dict_get (module_TEMPLATES w) pattern = Some template
           /\ fs w' !! agent_file = Some (File (content name template)))
  /\ (status = 1%Z -> fs w' !! agent_file = fs w !! agent_file).
Proof.
  intros name pattern path agent_file status w'.
  subst w' status agent_file path pattern name.
  split; [|split; [|split; [|split]]].
  - intros V. unfold script. rewrite main_unfold, create_agent_unfold.
    now rewrite V.
  - intros V Hin. unfold script. rewrite main_unfold, create_agent_unfold.
    rewrite V. cbn [negb]. unfold dict_in in Hin.
    now destruct (dict_get (module_TEMPLATES w) (args_pattern args)).
  - intros C V Hin X. unfold script. rewrite main_unfold.
    destruct (create_agent_on_existing_target _ _ _ _ C V Hin X) as (_ & _ & Run).
    now rewrite Run.
  - intros C V Hin Hb. destruct (dict_in_get _ _ Hin) as (template & G).
    destruct (mkdir_parents_blocked _ _ C Hb) as (e & R). exists e.
    unfold script. rewrite main_unfold, create_agent_unfold.
    now rewrite V, G, R.
  - pose proof (script_cases args w) as Cases. cbv zeta in Cases.
    destruct Cases as [(S0 & X & _ & template & G & F)
                      |(S1 & F & _)].
    + split; [now left|]. split; [|intros E; rewrite S0 in E; discriminate].
      split; [intros _; split; [exact X|eauto]|intros _; exact S0].
    + split; [now right|]. split; [|intros _; exact F].
      split; [intros E; rewrite S1 in E; discriminate|].
      intros (X & template & _ & W). exfalso.
      rewrite F in W. unfold Fs.exists_, truediv in X.
      rewrite lookup_node_cons in X. unfold truediv in W.
      rewrite W in X. discriminate.
Qed.

Lemma script_exit_status_witness :
  let args := {| args_name := "code-reviewer"; args_path := ["agents"; "notes.txt"];
                 args_pattern := "reviewer" |} in
  let w := initial_world (<[ ["notes.txt"] := File "remember" ]> ∅) in
  exists e, script args w = (1%Z, with_stderr w (stderr w ++ [Traceback e])).
Proof.
  apply (proj1 (proj2 (proj2 (proj2
           (script_exit_status
              {| args_name := "code-reviewer"; args_path := ["agents"; "notes.txt"];
                 args_pattern := "reviewer" |}
              (initial_world (<[ ["notes.txt"] := File "remember" ]> ∅))))))).
  - apply (bool_decide_unpack (Fs.consistent _)). vm_compute. exact I.
  - reflexivity.
  - reflexivity.
  - vm_compute. reflexivity.
Defined.

End Further.
